(** * ArtifactTool updater and invoker (vsts.cli.package.common.artifacttool)

    A shallow embedding of [ArtifactToolUpdater] and [ArtifactToolInvoker]
    from [artifacttool.py], together with the properties of the update
    check, of the subprocess invocation and of the structured log line
    handler [_process_stderr].

    Conventions.
    - A Python [str] is a [string]: a sequence of 8-bit characters (HTTP
      header values reach the code decoded as Latin-1, one character per
      byte).
    - A value produced by [json.loads] is a [pyval].  A [dict] is an
      association list in insertion order, read from the left.
    - A Python [float] is an IEEE 754 binary64 number, a [spec_float] with
      precision 53 and exponent bound 1024, and its arithmetic is the
      correctly rounded one of [SpecFloat].
    - Library routines whose bodies are not part of this program
      ([json.loads], [float] on a [str], [repr] of floats and strings,
      [os.path.join]) are fields of a [PyRuntime]; the process environment,
      the network, the archive extraction and the credential service are
      fields of a [World].
    - Effects are explicit: a computation [M A] reads and updates the set
      of existing paths, appends to a trace of [event]s, and ends with a
      value or with a raised exception. *)

From Stdlib Require Import ZArith NArith Ascii String SpecFloat.
From stdpp Require Import base gmap strings list pretty.

Local Open Scope string_scope.
Local Open Scope list_scope.

(** ** Strings *)

Module Str.

(** The double quote character, code 34. *)
Definition dquote_char : ascii := "034"%char.
Definition dquote : string := String dquote_char EmptyString.
(** The line feed character, code 10 (Python's ["\n"]). *)
Definition newline : string := String "010"%char EmptyString.

Fixpoint mem_char (c : ascii) (chars : string) : bool :=
  match chars with
  | EmptyString => false
  | String d rest => Ascii.eqb c d || mem_char c rest
  end.

(** [sub in s] on two [str]: [sub] occurs in [s] as a substring. *)
Fixpoint contains (sub s : string) : bool :=
  String.prefix sub s ||
  match s with
  | EmptyString => false
  | String _ rest => contains sub rest
  end.

(** [text] contains [sub]: the property behind [contains]. *)
Definition Contains (text sub : string) : Prop :=
  exists before after, text = before +:+ sub +:+ after.

(** [s.lstrip(chars)] and [s.rstrip(chars)]. *)
Fixpoint lstrip (chars s : string) : string :=
  match s with
  | EmptyString => EmptyString
  | String c rest => if mem_char c chars then lstrip chars rest else s
  end.

Fixpoint rstrip (chars s : string) : string :=
  match s with
  | EmptyString => EmptyString
  | String c rest =>
      match rstrip chars rest with
      | EmptyString => if mem_char c chars then EmptyString else String c EmptyString
      | kept => String c kept
      end
  end.

(** [s.strip(chars)]: leading and trailing characters of [chars] go. *)
Definition strip (chars s : string) : string := rstrip chars (lstrip chars s).

(** The scan of [s.replace(old, new)] for a non-empty [old]: left to
    right, occurrences do not overlap; [skip] counts the characters of
    the occurrence just matched that are still to be passed over. *)
Fixpoint replace_scan (old new : string) (skip : nat) (s : string) : string :=
  match s with
  | EmptyString => EmptyString
  | String c rest =>
      match skip with
      | S k => replace_scan old new k rest
      | O =>
          if String.prefix old s
          then new +:+ replace_scan old new (String.length old - 1) rest
          else String c (replace_scan old new 0 rest)
      end
  end.

Fixpoint interleave (new s : string) : string :=
  match s with
  | EmptyString => EmptyString
  | String c rest => String c (new +:+ interleave new rest)
  end.

(** [s.replace(old, new)]; an empty [old] matches between characters. *)
Definition replace (old new s : string) : string :=
  match old with
  | EmptyString => new +:+ interleave new s
  | String _ _ => replace_scan old new 0 s
  end.

(** [c.lower()] on a Latin-1 character: A-Z and the capital letters
    0xC0-0xDE (the multiplication sign 0xD7 apart) move up by 32. *)
Definition lower_char (c : ascii) : ascii :=
  let n := N_of_ascii c in
  if ((65 <=? n) && (n <=? 90))%N || ((192 <=? n) && (n <=? 222) && negb (n =? 215))%N
  then ascii_of_N (n + 32)
  else c.

Fixpoint lower (s : string) : string :=
  match s with
  | EmptyString => EmptyString
  | String c rest => String (lower_char c) (lower rest)
  end.

Fixpoint endswith_char (s : string) (c : ascii) : bool :=
  match s with
  | EmptyString => false
  | String d EmptyString => Ascii.eqb d c
  | String _ rest => endswith_char rest c
  end.

Fixpoint join (sep : string) (parts : list string) : string :=
  match parts with
  | [] => EmptyString
  | [p] => p
  | p :: rest => p +:+ sep +:+ join sep rest
  end.

(** [posixpath.join(a, *p)]. *)
Definition posix_join2 (path b : string) : string :=
  if String.prefix "/" b then b
  else if String.eqb path "" || endswith_char path "/" then path +:+ b
  else path +:+ "/" +:+ b.

Definition posix_join (a : string) (p : list string) : string :=
  fold_left posix_join2 p a.

End Str.

(** ** Python values and builtins *)

(** IEEE 754 binary64. *)
Definition prec : Z := 53.
Definition emax : Z := 1024.

(** What [json.loads] returns: [None], [bool], [int], [float], [str],
    [list] or [dict] (string keys, insertion order). *)
#[local] Unset Elimination Schemes.
Inductive pyval : Type :=
| PyNone
| PyBool (b : bool)
| PyInt (z : Z)
| PyFloat (f : spec_float)
| PyStr (s : string)
| PyList (items : list pyval)
| PyDict (kvs : list (string * pyval)).
#[local] Set Elimination Schemes.

(** The exceptions this code meets.  [CLIError] is knack's, raised by the
    log line handler; [RequestException], [BadZipFile], [OSError] and
    [CredentialError] stand for a failing collaborator. *)
Inductive exn : Type :=
| CLIError (message : pyval)
| TypeError
| KeyError (key : string)
| ValueError
| OverflowError
| ZeroDivisionError
| AttributeError
| RequestException
| BadZipFile
| OSError
| CredentialError.

(** Library routines taken as given. *)
Record PyRuntime : Type := {
  (** [json.loads(line)]; [None] when it raises. *)
  json_loads : string -> option pyval;
  (** [float(s)] for a [str]; [None] when it raises [ValueError]. *)
  float_of_str : string -> option spec_float;
  (** [repr] of a [float] and of a [str]. *)
  repr_float : spec_float -> string;
  repr_str : string -> string;
  (** [os.path.join(a, *p)] of the platform. *)
  os_path_join : string -> list string -> string
}.

Fixpoint dict_get (k : string) (kvs : list (string * pyval)) : option pyval :=
  match kvs with
  | [] => None
  | (k', v) :: rest => if String.eqb k' k then Some v else dict_get k rest
  end.

(** [v == s] for a [str] literal [s]. *)
Definition eq_str (v : pyval) (s : string) : bool :=
  match v with
  | PyStr t => String.eqb t s
  | _ => false
  end.

(** [bool(v)]. *)
Definition truthy (v : pyval) : bool :=
  match v with
  | PyNone => false
  | PyBool b => b
  | PyInt z => negb (z =? 0)%Z
  | PyFloat (S754_zero _) => false
  | PyFloat _ => true
  | PyStr s => negb (String.eqb s "")
  | PyList items => match items with [] => false | _ => true end
  | PyDict kvs => match kvs with [] => false | _ => true end
  end.

(** [k in v] for a [str] literal [k]. *)
Definition py_in (k : string) (v : pyval) : exn + bool :=
  match v with
  | PyDict kvs => inr (match dict_get k kvs with Some _ => true | None => false end)
  | PyList items => inr (existsb (fun x => eq_str x k) items)
  | PyStr s => inr (Str.contains k s)
  | PyNone | PyBool _ | PyInt _ | PyFloat _ => inl TypeError
  end.

(** [v[k]] for a [str] literal [k]. *)
Definition py_getitem (v : pyval) (k : string) : exn + pyval :=
  match v with
  | PyDict kvs => match dict_get k kvs with Some x => inr x | None => inl (KeyError k) end
  | _ => inl TypeError
  end.

Definition float_of_Z (z : Z) : spec_float := binary_normalize prec emax z 0 false.

(** [a * b] and [a / b] on floats; a zero divisor raises. *)
Definition float_mul (a b : spec_float) : spec_float := SFmul prec emax a b.

Definition float_div (a b : spec_float) : exn + spec_float :=
  match b with
  | S754_zero _ => inl ZeroDivisionError
  | _ => inr (SFdiv prec emax a b)
  end.

Section Builtins.
Context (rt : PyRuntime).

Fixpoint py_repr (v : pyval) : string :=
  match v with
  | PyNone => "None"
  | PyBool true => "True"
  | PyBool false => "False"
  | PyInt z => pretty z
  | PyFloat f => repr_float rt f
  | PyStr s => repr_str rt s
  | PyList items => "[" +:+ Str.join ", " (map py_repr items) +:+ "]"
  | PyDict kvs =>
      "{" +:+ Str.join ", " (map (fun kv => repr_str rt (fst kv) +:+ ": " +:+ py_repr (snd kv)) kvs) +:+ "}"
  end.

(** [str(v)], the conversion [%s] applies. *)
Definition py_str (v : pyval) : string :=
  match v with
  | PyStr s => s
  | _ => py_repr v
  end.

(** [float(v)]. *)
Definition py_float (v : pyval) : exn + spec_float :=
  match v with
  | PyInt z =>
      match float_of_Z z with
      | S754_infinity _ => inl OverflowError
      | f => inr f
      end
  | PyFloat f => inr f
  | PyBool b => inr (float_of_Z (if b then 1 else 0))
  | PyStr s => match float_of_str rt s with Some f => inr f | None => inl ValueError end
  | PyNone | PyList _ | PyDict _ => inl TypeError
  end.

(** The text of a raised exception, [str(e)], for a [CLIError]. *)
Definition error_text (e : exn) : option string :=
  match e with
  | CLIError message => Some (py_str message)
  | _ => None
  end.

End Builtins.

(** ** Effects *)

Inductive level : Type := Debug | Info | Warning.

(** What a run leaves behind, in order: calls of the module logger
    ([logger.debug], [logger.info], [logger.warning]), calls of the
    progress callback, [requests.head] and [requests.get], the archive
    extraction, and the call of the subprocess runner [self.run]. *)
Inductive event : Type :=
| Log (lvl : level) (msg : pyval)
| Progress (message : string) (percent : spec_float)
| HttpHead (url : string)
| HttpGet (url : string)
| ExtractAll (dir : string)
| Run (command_args : list string) (env : gmap string string) (initial_progress_message : string).

(** What opening an archive and extracting it into a directory does to
    the set of existing paths: [ZipFile] rejects the content and nothing is
    written; or every member is written; or [extractall] raises part way
    (a member with a bad CRC, a full disk), the members written so far
    staying where they are. *)
Inductive extraction : Type :=
| NotAnArchive
| Extracted (after : gset string)
| ExtractionFailed (ex : exn) (partial : gset string).

(** What surrounds the process. *)
Record World : Type := {
  (** [os.environ]. *)
  environ : gmap string string;
  (** [tempfile.gettempdir()]. *)
  gettempdir : string;
  (** [requests.head(url)]: the request fails ([None]), or answers with
      headers whose [get('ETag')] is the given option. *)
  http_head : string -> option (option string);
  (** [requests.get(url).content]; [None] when the request fails. *)
  http_get : string -> option string;
  (** [ZipFile(BytesIO(content))] and then [extractall(path=dir)] on a
      set of existing paths: see [extraction]. *)
  extractall : string -> string -> gset string -> extraction;
  (** [_get_credentials(team_instance).password]; [None] when no
      credential resolves. *)
  credentials_password : string -> option string
}.

(** A computation: from the set of existing paths to an outcome, the
    paths afterwards and the events it produced. *)
Definition M (A : Type) : Type := gset string -> (exn + A) * gset string * list event.

Definition outcome {A} (r : (exn + A) * gset string * list event) : exn + A := r.1.1.
Definition disk {A} (r : (exn + A) * gset string * list event) : gset string := r.1.2.
Definition trace {A} (r : (exn + A) * gset string * list event) : list event := r.2.

#[global] Instance M_ret : MRet M := fun A (a : A) fs => (inr a, fs, []).

#[global] Instance M_bind : MBind M := fun A B (k : A -> M B) (m : M A) fs =>
  match m fs with
  | (inl e, fs1, t1) => (inl e, fs1, t1)
  | (inr a, fs1, t1) =>
      match k a fs1 with
      | (r, fs2, t2) => (r, fs2, t1 ++ t2)
      end
  end.

Definition raise {A} (e : exn) : M A := fun fs => (inl e, fs, []).
Definition emit (ev : event) : M unit := fun fs => (inr tt, fs, [ev]).
Definition lift {A} (r : exn + A) : M A :=
  match r with
  | inl e => raise e
  | inr a => mret a
  end.
Definition path_exists (p : string) : M bool := fun fs => (inr (bool_decide (p ∈ fs)), fs, []).

Definition logger_debug (msg : pyval) : M unit := emit (Log Debug msg).
Definition logger_info (msg : pyval) : M unit := emit (Log Info msg).
Definition logger_warning (msg : pyval) : M unit := emit (Log Warning msg).

(** The progress callback calls and the network requests of a trace. *)
Definition progress_calls (t : list event) : list (string * spec_float) :=
  omap (fun ev => match ev with Progress m p => Some (m, p) | _ => None end) t.

Definition is_request (ev : event) : bool :=
  match ev with
  | HttpHead _ | HttpGet _ => true
  | _ => false
  end.

Definition network_requests (t : list event) : list event := List.filter is_request t.

(** The events of a trace other than logger calls. *)
Definition is_log (ev : event) : bool :=
  match ev with
  | Log _ _ => true
  | _ => false
  end.

Definition effects (t : list event) : list event := List.filter (fun ev => negb (is_log ev)) t.

Definition run_calls (t : list event) : list (list string * gmap string string * string) :=
  omap (fun ev => match ev with Run a e l => Some (a, e, l) | _ => None end) t.

(** ** The program *)

Section Program.
Context (rt : PyRuntime) (w : World).

(** *** class ArtifactToolUpdater *)

Definition ARTIFACTTOOL_OVERRIDE_PATH_ENVKEY : string := "VSTS_ARTIFACTTOOL_OVERRIDE_PATH".
Definition ARTIFACTTOOL_OVERRIDE_URL_ENVKEY : string := "VSTS_ARTIFACTTOOL_OVERRIDE_URL".
Definition DEFAULT_ARTIFACTTOOL_BINARY_URL : string :=
  "https://zachtest1.blob.core.windows.net/test/artifacttool-win10-x64-Release.zip".

(** [requests.head(url)] and [requests.get(url)]. *)
Definition requests_head (url : string) : M (option string) :=
  emit (HttpHead url) ;;
  match http_head w url with
  | Some headers_etag => mret headers_etag
  | None => raise RequestException
  end.

Definition requests_get (url : string) : M string :=
  emit (HttpGet url) ;;
  match http_get w url with
  | Some content => mret content
  | None => raise RequestException
  end.

(** [ZipFile(io.BytesIO(content)).extractall(path=tool_dir)]. *)
Definition zip_extractall (content tool_dir : string) : M unit :=
  fun fs =>
    match extractall w content tool_dir fs with
    | NotAnArchive => (inl BadZipFile, fs, [])
    | Extracted fs' => (inr tt, fs', [ExtractAll tool_dir])
    | ExtractionFailed ex fs' => (inl ex, fs', [ExtractAll tool_dir])
    end.

(** Line 53, on the value of the ETag header: [strip] with the double
    quote as its character set, [replace] of "0x" by the empty string,
    [lower]. *)
Definition etag_of_header (header : string) : string :=
  Str.lower (Str.replace "0x" "" (Str.strip Str.dquote header)).

(** Lines 56-61: the paths derived from an etag. *)
Definition tool_dir_of (etag : string) : string :=
  let temp_dir := gettempdir w in
  let tool_root := os_path_join rt temp_dir ["ArtifactTool"] in
  os_path_join rt tool_root [etag].

Definition binary_path_of (etag : string) : string :=
  os_path_join rt (tool_dir_of etag) ["artifacttool-win10-x64-Release"; "ArtifactTool.exe"].

(** Lines 44-50: the URL the archive comes from. *)
Definition binary_url : string :=
  match environ w !! ARTIFACTTOOL_OVERRIDE_URL_ENVKEY with
  | Some artifacttool_binary_override_url => artifacttool_binary_override_url
  | None => DEFAULT_ARTIFACTTOOL_BINARY_URL
  end.

Definition _update_artifacttool (team_instance : string) : M string :=
  logger_debug (PyStr "Checking for ArtifactTool updates") ;;
  let artifacttool_binary_url := binary_url in
  match environ w !! ARTIFACTTOOL_OVERRIDE_URL_ENVKEY with
  | Some artifacttool_binary_override_url =>
      logger_debug (PyStr ("ArtifactTool download URL was overridden to '" +:+
        artifacttool_binary_override_url +:+ "' due to environment variable " +:+
        ARTIFACTTOOL_OVERRIDE_URL_ENVKEY))
  | None =>
      logger_debug (PyStr ("Using default update URL '" +:+ artifacttool_binary_url +:+ "'"))
  end ;;
  head_result ← requests_head artifacttool_binary_url;
  etag ← match head_result with
         | Some header => mret (etag_of_header header)
         | None => raise AttributeError
         end;
  logger_debug (PyStr ("Latest ArtifactTool is ETag '" +:+ etag +:+ "'")) ;;
  let tool_dir := tool_dir_of etag in
  let binary_path := binary_path_of etag in
  present ← path_exists binary_path;
  (if present : bool
   then logger_debug (PyStr ("Not downloading ArtifactTool as it already exists at " +:+ tool_dir))
   else
     logger_debug (PyStr ("Downloading ArtifactTool to " +:+ tool_dir)) ;;
     content ← requests_get artifacttool_binary_url;
     zip_extractall content tool_dir) ;;
  mret binary_path.

Definition get_latest_artifacttool (team_instance : string) : M string :=
  match environ w !! ARTIFACTTOOL_OVERRIDE_PATH_ENVKEY with
  | Some artifacttool_binary_override_path =>
      let artifacttool_binary_path := artifacttool_binary_override_path in
      logger_debug (PyStr ("ArtifactTool path was overriden to '" +:+ artifacttool_binary_path +:+
        "' due to environment variable " +:+ ARTIFACTTOOL_OVERRIDE_PATH_ENVKEY)) ;;
      mret artifacttool_binary_path
  | None =>
      logger_debug (PyStr "Checking for a new ArtifactTool") ;;
      artifacttool_binary_path ← _update_artifacttool team_instance;
      logger_debug (PyStr ("Using downloaded ArtifactTool from '" +:+ artifacttool_binary_path +:+ "'")) ;;
      mret artifacttool_binary_path
  end.

(** *** class ArtifactToolInvoker *)

Definition PATVAR : string := "VSTS_ARTIFACTTOOL_PATVAR".

(** [_get_credentials(team_instance)], then [creds.password]. *)
Definition _get_credentials (team_instance : string) : M string :=
  match credentials_password w team_instance with
  | Some password => mret password
  | None => raise CredentialError
  end.

(** [self.run(command_args, new_env, initial_progress_message,
    self._process_stderr)]: the call is recorded. *)
Definition run (command_args : list string) (env : gmap string string)
    (initial_progress_message : string) : M unit :=
  emit (Run command_args env initial_progress_message).

Definition invoke_artifacttool (team_instance : string) (args : list string)
    (initial_progress_message : string) : M unit :=
  artifacttool_path ← get_latest_artifacttool team_instance;
  password ← _get_credentials team_instance;
  let new_env := <[PATVAR := password]> (environ w) in
  let command_args := [artifacttool_path] ++ args in
  run command_args new_env initial_progress_message.

Definition download_args (team_instance feed package_name package_version path : string)
    : list string :=
  ["upack"; "download"; "--service"; team_instance; "--patvar"; PATVAR; "--feed"; feed;
   "--package-name"; package_name; "--package-version"; package_version; "--path"; path].

Definition download_upack (team_instance feed package_name package_version path : string)
    : M unit :=
  invoke_artifacttool team_instance
    (download_args team_instance feed package_name package_version path) "Downloading".

(** [description] is [None] or a [str]; [if description] holds for a
    non-empty one. *)
Definition publish_args (team_instance feed package_name package_version : string)
    (description : option string) (path : string) : list string :=
  let args :=
    ["upack"; "publish"; "--service"; team_instance; "--patvar"; PATVAR; "--feed"; feed;
     "--package-name"; package_name; "--package-version"; package_version; "--path"; path] in
  match description with
  | Some d => if String.eqb d "" then args else args ++ ["--description"; d]
  | None => args
  end.

Definition publish_upack (team_instance feed package_name package_version : string)
    (description : option string) (path : string) : M unit :=
  invoke_artifacttool team_instance
    (publish_args team_instance feed package_name package_version description path) "Publishing".

End Program.

(** *** ArtifactToolInvoker._process_stderr *)

Section ProcessStderr.
Context (rt : PyRuntime).

(** [update_progress_callback(message, percent)]: the call is recorded. *)
Definition update_progress_callback (message : string) (percent : spec_float) : M unit :=
  emit (Progress message percent).

(** Lines 103-107: [json.loads] under a bare [except]. *)
Definition parse_line (line : string) : M pyval :=
  match json_loads rt line with
  | Some json_line => mret json_line
  | None =>
      logger_debug (PyStr "Failed to parse JSON log line. Ensure that ArtifactTool structured logging is enabled.") ;;
      mret PyNone
  end.

(** Lines 109-124: the message of the line, by level. *)
Definition log_message (line : string) (json_line : pyval) : M unit :=
  has_m ← match json_line with
          | PyNone => mret false
          | _ => lift (py_in "@m" json_line)
          end;
  if has_m : bool then
    has_l ← lift (py_in "@l" json_line);
    log_level ← (if has_l : bool then lift (py_getitem json_line "@l")
                 else mret (PyStr "Information"));
    message ← lift (py_getitem json_line "@m");
    if eq_str log_level "Critical" || eq_str log_level "Error" then
      has_x ← lift (py_in "@x" json_line);
      ex ← (if has_x : bool then lift (py_getitem json_line "@x") else mret PyNone);
      let message :=
        if truthy ex
        then PyStr (py_str rt message +:+ Str.newline +:+ py_str rt ex)
        else message in
      raise (CLIError message)
    else if eq_str log_level "Warning" then logger_warning message
    else if eq_str log_level "Information" then logger_info message
    else logger_debug message
  else logger_debug (PyStr line).

(** One of the three blocks of lines 129-145: for the event [name], the
    counts under [done_key] and [total_key], the percentage, and the
    callback with the message [label X/Y unit]. *)
Definition progress_block (json_line event_name : pyval)
    (name done_key total_key label unit_name : string) : M unit :=
  if eq_str event_name name then
    done ← lift (py_getitem json_line done_key);
    total ← lift (py_getitem json_line total_key);
    done_float ← lift (py_float rt done);
    let scaled := float_mul (float_of_Z 100) done_float in
    total_float ← lift (py_float rt total);
    percent ← lift (float_div scaled total_float);
    update_progress_callback
      (label +:+ ": " +:+ py_str rt done +:+ "/" +:+ py_str rt total +:+ " " +:+ unit_name)
      percent
  else mret tt.

(** Lines 126-145: the progress of a recognised event. *)
Definition report_progress (json_line : pyval) : M unit :=
  has_event ← (if truthy json_line then
                 has_id ← lift (py_in "EventId" json_line);
                 if has_id : bool then
                   event_id ← lift (py_getitem json_line "EventId");
                   lift (py_in "Name" event_id)
                 else mret false
               else mret false);
  if has_event : bool then
    event_id ← lift (py_getitem json_line "EventId");
    event_name ← lift (py_getitem event_id "Name");
    progress_block json_line event_name
      "ProcessingFiles" "ProcessedFiles" "TotalFiles" "Pre-upload processing" "files" ;;
    progress_block json_line event_name
      "Uploading" "UploadedBytes" "TotalBytes" "Uploading" "bytes" ;;
    progress_block json_line event_name
      "Downloading" "DownloadedBytes" "TotalBytes" "Downloading" "bytes"
  else mret tt.

Definition _process_stderr (line : string) : M unit :=
  json_line ← parse_line line;
  log_message line json_line ;;
  report_progress json_line.

End ProcessStderr.

(** ** Concrete inputs *)

Module Samples.

(** A JSON string literal with plain content. *)
Definition q (s : string) : string := Str.dquote +:+ s +:+ Str.dquote.

(** The line [{"@l":"Error","@m":"X"}] and its value. *)
Definition error_line : string :=
  "{" +:+ q "@l" +:+ ":" +:+ q "Error" +:+ "," +:+ q "@m" +:+ ":" +:+ q "X" +:+ "}".
Definition error_value : pyval :=
  PyDict [("@l", PyStr "Error"); ("@m", PyStr "X")].

(** The line [{"@l":"Critical","@m":"X","@x":"trace"}] and its value. *)
Definition critical_line : string :=
  "{" +:+ q "@l" +:+ ":" +:+ q "Critical" +:+ "," +:+ q "@m" +:+ ":" +:+ q "X" +:+ "," +:+
  q "@x" +:+ ":" +:+ q "trace" +:+ "}".
Definition critical_value : pyval :=
  PyDict [("@l", PyStr "Critical"); ("@m", PyStr "X"); ("@x", PyStr "trace")].

(** The line
    [{"EventId":{"Name":"Downloading"},"DownloadedBytes":50,"TotalBytes":200}]
    and its value. *)
Definition downloading_fields : string :=
  q "EventId" +:+ ":{" +:+ q "Name" +:+ ":" +:+ q "Downloading" +:+ "}," +:+
  q "DownloadedBytes" +:+ ":50," +:+ q "TotalBytes" +:+ ":200".
Definition downloading_line : string := "{" +:+ downloading_fields +:+ "}".
Definition downloading_value : pyval :=
  PyDict [("EventId", PyDict [("Name", PyStr "Downloading")]);
          ("DownloadedBytes", PyInt 50); ("TotalBytes", PyInt 200)].

(** The same event on a line that also reports an error:
    [{"@l":"Error","@m":"X","EventId":{"Name":"Downloading"},"DownloadedBytes":50,"TotalBytes":200}]. *)
Definition failed_download_line : string :=
  "{" +:+ q "@l" +:+ ":" +:+ q "Error" +:+ "," +:+ q "@m" +:+ ":" +:+ q "X" +:+ "," +:+
  downloading_fields +:+ "}".
Definition failed_download_value : pyval :=
  PyDict [("@l", PyStr "Error"); ("@m", PyStr "X");
          ("EventId", PyDict [("Name", PyStr "Downloading")]);
          ("DownloadedBytes", PyInt 50); ("TotalBytes", PyInt 200)].

(** The same event on a line that reports a critical failure with its
    exception text:
    [{"@l":"Critical","@m":"X","@x":"trace","EventId":{"Name":"Downloading"},"DownloadedBytes":50,"TotalBytes":200}]. *)
Definition aborted_download_line : string :=
  "{" +:+ q "@l" +:+ ":" +:+ q "Critical" +:+ "," +:+ q "@m" +:+ ":" +:+ q "X" +:+ "," +:+
  q "@x" +:+ ":" +:+ q "trace" +:+ "," +:+ downloading_fields +:+ "}".
Definition aborted_download_value : pyval :=
  PyDict [("@l", PyStr "Critical"); ("@m", PyStr "X"); ("@x", PyStr "trace");
          ("EventId", PyDict [("Name", PyStr "Downloading")]);
          ("DownloadedBytes", PyInt 50); ("TotalBytes", PyInt 200)].

(** What [json.loads] returns on the sample lines; every other line,
    such as [plain_line], is taken to be no JSON. *)
Definition parsed_lines : list (string * pyval) :=
  [(error_line, error_value); (critical_line, critical_value);
   (downloading_line, downloading_value); (failed_download_line, failed_download_value);
   (aborted_download_line, aborted_download_value);
   ("123", PyInt 123); ("true", PyBool true); ("null", PyNone)].

Definition plain_line : string := "Unhandled exception. Exiting".

Definition loads (line : string) : option pyval := dict_get line parsed_lines.

(** [float] on a string of decimal digits. *)
Fixpoint digits_value (acc : Z) (s : string) : option Z :=
  match s with
  | EmptyString => Some acc
  | String c rest =>
      let n := Z.of_N (N_of_ascii c) in
      if ((48 <=? n) && (n <=? 57))%Z then digits_value (10 * acc + (n - 48)) rest else None
  end.

Definition digits_float (s : string) : option spec_float :=
  match s with
  | EmptyString => None
  | _ => float_of_Z <$> digits_value 0 s
  end.

(** A runtime for the sample inputs: [loads] for [json.loads], POSIX
    paths.  The remaining routines cover plain cases only (digit strings,
    strings shown between single quotes, floats shown by mantissa and
    exponent); no sample reaches them. *)
Definition runtime : PyRuntime := {|
  json_loads := loads;
  float_of_str := digits_float;
  repr_float := fun f =>
    match f with
    | S754_zero s => if s then "-0.0" else "0.0"
    | S754_infinity s => if s then "-inf" else "inf"
    | S754_nan => "nan"
    | S754_finite s m e => (if s then "-" else "") +:+ pretty (Z.pos m) +:+ "*2**" +:+ pretty e
    end;
  repr_str := fun s => "'" +:+ s +:+ "'";
  os_path_join := Str.posix_join
|}.

(** The header value ["0x8D5F3A"], quotes included, and one with a
    second occurrence of 0x, ["0x8D50x1F"]. *)
Definition etag_header : string := q "0x8D5F3A".
Definition etag_header_twice : string := q "0x8D50x1F".

(** A world: the given environment, temporary directory [/tmp], a server
    that answers every HEAD with [etag_header] and every GET with an
    archive holding the one binary, and one credential for every
    endpoint. *)
Definition world (env : gmap string string) (password : string) : World := {|
  environ := env;
  gettempdir := "/tmp";
  http_head := fun _ => Some (Some etag_header);
  http_get := fun _ => Some "PK";
  extractall := fun _ dir fs =>
    Extracted
      ({[ Str.posix_join dir ["artifacttool-win10-x64-Release"; "ArtifactTool.exe"] ]} ∪ fs);
  credentials_password := fun _ => Some password
|}.

Definition cached_binary : string :=
  "/tmp/ArtifactTool/8d5f3a/artifacttool-win10-x64-Release/ArtifactTool.exe".

End Samples.

(** ** The commands of upack.py *)

Section Upack.
Context (rt : PyRuntime) (w : World).
(** [handle_command_exception(ex)], of vsts.cli.common.exception_handling. *)
Context (handle_command_exception : exn -> M unit).

(** [try: body / except Exception as ex: handler(ex)]. *)
Definition try_except {A} (body : M A) (handler : exn -> M A) : M A :=
  fun fs =>
    match body fs with
    | (inl ex, fs1, t1) =>
        match handler ex fs1 with
        | (r, fs2, t2) => (r, fs2, t1 ++ t2)
        end
    | (inr a, fs1, t1) => (inr a, fs1, t1)
    end.

(** [publish_package(team_instance, feed, name, version, path,
    description=None)]. *)
Definition publish_package (team_instance feed name version path : string)
    (description : option string) : M unit :=
  try_except
    (publish_upack rt w team_instance feed name version description path)
    handle_command_exception.

(** [download_package(team_instance, feed, name, version, path)]. *)
Definition download_package (team_instance feed name version path : string) : M unit :=
  try_except
    (download_upack rt w team_instance feed name version path)
    handle_command_exception.

End Upack.

(** ** Further concrete inputs *)

Module MoreSamples.

Definition q := Samples.q.

(** [{"@l":"Warning","@m":"slow"}], [{"@m":"started"}] and
    [{"@l":"Verbose","@m":"detail"}]. *)
Definition warning_line : string :=
  "{" +:+ q "@l" +:+ ":" +:+ q "Warning" +:+ "," +:+ q "@m" +:+ ":" +:+ q "slow" +:+ "}".
Definition info_line : string := "{" +:+ q "@m" +:+ ":" +:+ q "started" +:+ "}".
Definition verbose_line : string :=
  "{" +:+ q "@l" +:+ ":" +:+ q "Verbose" +:+ "," +:+ q "@m" +:+ ":" +:+ q "detail" +:+ "}".

(** [{"Elapsed":12}]: an object with neither message nor event. *)
Definition other_line : string := "{" +:+ q "Elapsed" +:+ ":12}".

(** [{"EventId":{"Name":"Hashing"}}]: an event the handler does not know. *)
Definition hashing_line : string :=
  "{" +:+ q "EventId" +:+ ":{" +:+ q "Name" +:+ ":" +:+ q "Hashing" +:+ "}}".

(** [{"EventId":{"Name":"Uploading"},"UploadedBytes":0,"TotalBytes":0}]. *)
Definition empty_upload_line : string :=
  "{" +:+ q "EventId" +:+ ":{" +:+ q "Name" +:+ ":" +:+ q "Uploading" +:+ "}," +:+
  q "UploadedBytes" +:+ ":0," +:+ q "TotalBytes" +:+ ":0}".

(** [{"EventId":{"Name":"ProcessingFiles"},"TotalFiles":3}]: the count of
    processed files is missing. *)
Definition no_count_line : string :=
  "{" +:+ q "EventId" +:+ ":{" +:+ q "Name" +:+ ":" +:+ q "ProcessingFiles" +:+ "}," +:+
  q "TotalFiles" +:+ ":3}".

(** [{"EventId":null}] and [{"EventId":{}}]. *)
Definition null_event_line : string := "{" +:+ q "EventId" +:+ ":null}".
Definition unnamed_event_line : string := "{" +:+ q "EventId" +:+ ":{}}".

(** [[1]]: an array. *)
Definition array_line : string := "[1]".

(** [{"@l":"Error","@m":"X","@x":0}]: an error whose exception field is
    the number zero. *)
Definition zero_exception_line : string :=
  "{" +:+ q "@l" +:+ ":" +:+ q "Error" +:+ "," +:+ q "@m" +:+ ":" +:+ q "X" +:+ "," +:+
  q "@x" +:+ ":0}".

(** [{"EventId":{"Name":"Downloading"},"DownloadedBytes":N,"TotalBytes":200}]
    with N the integer 2 ** 1024, written in decimal. *)
Definition huge_download_line : string :=
  "{" +:+ q "EventId" +:+ ":{" +:+ q "Name" +:+ ":" +:+ q "Downloading" +:+ "}," +:+
  q "DownloadedBytes" +:+ ":" +:+ pretty (2 ^ 1024)%Z +:+ "," +:+ q "TotalBytes" +:+ ":200}".

(** What [json.loads] returns on these lines. *)
Definition parsed_lines : list (string * pyval) :=
  [(warning_line, PyDict [("@l", PyStr "Warning"); ("@m", PyStr "slow")]);
   (info_line, PyDict [("@m", PyStr "started")]);
   (verbose_line, PyDict [("@l", PyStr "Verbose"); ("@m", PyStr "detail")]);
   (other_line, PyDict [("Elapsed", PyInt 12)]);
   (hashing_line, PyDict [("EventId", PyDict [("Name", PyStr "Hashing")])]);
   (empty_upload_line,
    PyDict [("EventId", PyDict [("Name", PyStr "Uploading")]);
            ("UploadedBytes", PyInt 0); ("TotalBytes", PyInt 0)]);
   (no_count_line,
    PyDict [("EventId", PyDict [("Name", PyStr "ProcessingFiles")]); ("TotalFiles", PyInt 3)]);
   (null_event_line, PyDict [("EventId", PyNone)]);
   (unnamed_event_line, PyDict [("EventId", PyDict [])]);
   (array_line, PyList [PyInt 1]);
   (zero_exception_line, PyDict [("@l", PyStr "Error"); ("@m", PyStr "X"); ("@x", PyInt 0)]);
   (huge_download_line,
    PyDict [("EventId", PyDict [("Name", PyStr "Downloading")]);
            ("DownloadedBytes", PyInt (2 ^ 1024)); ("TotalBytes", PyInt 200)])].

(** [Samples.runtime] with these lines for [json.loads]. *)
Definition runtime : PyRuntime := {|
  json_loads := fun line => dict_get line parsed_lines;
  float_of_str := float_of_str Samples.runtime;
  repr_float := repr_float Samples.runtime;
  repr_str := repr_str Samples.runtime;
  os_path_join := os_path_join Samples.runtime
|}.

(** [Samples.world] with no environment variable, and its variants: a
    server that does not answer, one that sends no ETag, one whose GET
    fails, one whose content is no archive, and a credential service that
    knows no credential. *)
Definition world : World := Samples.world ∅ "s3cr3t".

Definition offline_world : World := {|
  environ := environ world; gettempdir := gettempdir world;
  http_head := fun _ => None;
  http_get := http_get world; extractall := extractall world;
  credentials_password := credentials_password world
|}.

Definition no_etag_world : World := {|
  environ := environ world; gettempdir := gettempdir world;
  http_head := fun _ => Some None;
  http_get := http_get world; extractall := extractall world;
  credentials_password := credentials_password world
|}.

Definition no_get_world : World := {|
  environ := environ world; gettempdir := gettempdir world;
  http_head := http_head world;
  http_get := fun _ => None; extractall := extractall world;
  credentials_password := credentials_password world
|}.

Definition bad_zip_world : World := {|
  environ := environ world; gettempdir := gettempdir world;
  http_head := http_head world;
  http_get := http_get world; extractall := fun _ _ _ => NotAnArchive;
  credentials_password := credentials_password world
|}.


Definition no_credential_world : World := {|
  environ := environ world; gettempdir := gettempdir world;
  http_head := http_head world;
  http_get := http_get world; extractall := extractall world;
  credentials_password := fun _ => None
|}.

(** A handler that records the exception in the debug log and returns. *)
Definition logging_handler (ex : exn) : M unit :=
  match ex with
  | CLIError message => logger_debug message
  | _ => logger_debug (PyStr "error")
  end.

End MoreSamples.

(** ** Definitions used to state the properties *)

(** The logger level the handler picks for a level that is neither
    Critical nor Error (lines 117-122). *)
Definition level_of (log_level : pyval) : level :=
  if eq_str log_level "Warning" then Warning
  else if eq_str log_level "Information" then Info
  else Debug.

(** The line carries no message of severity Critical or Error. *)
Definition no_error_message (kvs : list (string * pyval)) : Prop :=
  dict_get "@m" kvs = None \/
  (dict_get "@l" kvs <> Some (PyStr "Critical") /\ dict_get "@l" kvs <> Some (PyStr "Error")).

(** A float that is not a zero. *)
Definition nonzero (f : spec_float) : Prop := forall s, f <> S754_zero s.

(** The three recognised events with the keys of their counts. *)
Definition recognised_events : list (string * string * string) :=
  [("ProcessingFiles", "ProcessedFiles", "TotalFiles");
   ("Uploading", "UploadedBytes", "TotalBytes");
   ("Downloading", "DownloadedBytes", "TotalBytes")].

(** The words of the two command lines that do not come from the caller. *)
Definition fixed_words : list string :=
  ["upack"; "download"; "publish"; "--service"; "--patvar"; "VSTS_ARTIFACTTOOL_PATVAR"; "--feed";
   "--package-name"; "--package-version"; "--path"; "--description"].

(** The same world with another credential service. *)
Definition set_credentials (w : World) (f : string -> option string) : World := {|
  environ := environ w;
  gettempdir := gettempdir w;
  http_head := http_head w;
  http_get := http_get w;
  extractall := extractall w;
  credentials_password := f
|}.

(** The version tag as the specification words it, for comparison with
    [etag_of_header]: surrounding quotes stripped, the prefix 0x removed
    where the value starts with it, lowercased. *)
Definition remove_prefix (p s : string) : string :=
  if String.prefix p s then String.substring (String.length p) (String.length s - String.length p) s
  else s.

Definition spec_version_tag (header : string) : string :=
  Str.lower (remove_prefix "0x" (Str.strip Str.dquote header)).

(** ** Strings: lemmas *)

Lemma append_cons c s t : String c s +:+ t = String c (s +:+ t).
Proof. reflexivity. Qed.

Lemma append_nil_r s : s +:+ "" = s.
Proof. induction s as [|c s IH]; [done|]. by rewrite append_cons, IH. Qed.

Lemma append_assoc s t u : (s +:+ t) +:+ u = s +:+ t +:+ u.
Proof. induction s as [|c s IH]; [done|]. by rewrite !append_cons, IH. Qed.

Lemma Contains_refl s : Str.Contains s s.
Proof. exists "", "". by rewrite append_nil_r. Qed.

Lemma Contains_empty s : Str.Contains s "".
Proof. by exists "", s. Qed.

Lemma Contains_app_l s t u : Str.Contains s u -> Str.Contains (s +:+ t) u.
Proof.
  intros (a & b & ->). exists a, (b +:+ t). by rewrite !append_assoc.
Qed.

Lemma Contains_app_r s t u : Str.Contains t u -> Str.Contains (s +:+ t) u.
Proof.
  intros (a & b & ->). exists (s +:+ a), b. by rewrite !append_assoc.
Qed.

Create HintDb contains.
#[local] Hint Resolve Contains_refl Contains_app_l Contains_app_r : contains.

Lemma lower_app s t : Str.lower (s +:+ t) = Str.lower s +:+ Str.lower t.
Proof. induction s as [|c s IH]; [done|]. cbn [Str.lower]. by rewrite !append_cons, <- IH. Qed.

Lemma substring_whole s : String.substring 0 (String.length s) s = s.
Proof. induction s as [|c s IH]; [done|]. cbn [String.length String.substring]. by rewrite IH. Qed.

Lemma prefix_empty s : String.prefix "" s = true.
Proof. by destruct s. Qed.

Lemma prefix_0x_cons c s :
  String.prefix "0x" (String c s) = Ascii.eqb c "0" && String.prefix "x" s.
Proof.
  cbn [String.prefix]. destruct (ascii_dec "0" c) as [<-|Hne].
  - reflexivity.
  - symmetry. apply andb_false_intro1. by apply Ascii.eqb_neq.
Qed.

Lemma prefix_x_app a t :
  a <> "" -> String.prefix "x" (a +:+ t) = String.prefix "x" a.
Proof.
  destruct a as [|c a]; [done|]. intros _. rewrite append_cons. cbn [String.prefix].
  destruct (ascii_dec "x" c); [|done]. by rewrite !prefix_empty.
Qed.

(** The scan for 0x over [a], an occurrence of 0x, then [b]: the
    occurrence goes, and the two sides are scanned on their own. *)
Lemma replace_scan_0x_app a b k :
  k = 0 \/ (k = 1 /\ a <> "") ->
  Str.replace_scan "0x" "" k (a +:+ "0x" +:+ b) =
  Str.replace_scan "0x" "" k a +:+ Str.replace_scan "0x" "" 0 b.
Proof.
  revert k. induction a as [|c a IH]; intros k Hk.
  - destruct Hk as [->|[_ []]]; [|done].
    change ("" +:+ "0x" +:+ b) with (String "0" (String "x" b)).
    cbn [Str.replace_scan]. rewrite prefix_0x_cons. cbn [String.prefix Ascii.eqb Bool.eqb andb].
    destruct (ascii_dec "x" "x"); [|done]. rewrite prefix_empty. reflexivity.
  - rewrite append_cons.
    pose proof (IH 0 (or_introl eq_refl)) as IH0.
    assert (IH1 : a <> "" ->
      Str.replace_scan "0x" "" 1 (a +:+ "0x" +:+ b) =
      Str.replace_scan "0x" "" 1 a +:+ Str.replace_scan "0x" "" 0 b)
      by (intros Ha; apply IH; by right).
    clear IH. destruct Hk as [->|[-> _]].
    + cbn [Str.replace_scan]. rewrite !prefix_0x_cons.
      assert (Hx : String.prefix "x" (a +:+ "0x" +:+ b) = String.prefix "x" a).
      { destruct a as [|d a]; [reflexivity|]. by apply prefix_x_app. }
      rewrite Hx. destruct (Ascii.eqb c "0" && String.prefix "x" a) eqn:Hhit.
      * cbn [String.length Nat.sub]. change ("" +:+ ?s) with s. apply IH1.
        intros ->. by rewrite andb_false_r in Hhit.
      * by rewrite (append_cons c), IH0.
    + cbn [Str.replace_scan]. exact IH0.
Qed.

Lemma replace_0x_app a b :
  Str.replace "0x" "" (a +:+ "0x" +:+ b) = Str.replace "0x" "" a +:+ Str.replace "0x" "" b.
Proof. apply replace_scan_0x_app. by left. Qed.

Lemma replace_0x_absent s :
  Str.contains "0x" s = false -> Str.replace "0x" "" s = s.
Proof.
  unfold Str.replace. induction s as [|c s IH]; [done|].
  cbn [Str.contains Str.replace_scan]. intros [Hp Hc]%orb_false_elim.
  rewrite Hp. f_equal. by apply IH.
Qed.

(** ** Running computations *)

Lemma run_bind_ok {A B} (m : M A) (k : A -> M B) fs a fs1 t1 r fs2 t2 t :
  m fs = (inr a, fs1, t1) ->
  k a fs1 = (r, fs2, t2) ->
  t = t1 ++ t2 ->
  (m ≫= k) fs = (r, fs2, t).
Proof. intros Hm Hk ->. unfold mbind, M_bind. by rewrite Hm, Hk. Qed.

Lemma run_bind_raise {A B} (m : M A) (k : A -> M B) fs e fs1 t1 :
  m fs = (inl e, fs1, t1) ->
  (m ≫= k) fs = (inl e, fs1, t1).
Proof. intros Hm. unfold mbind, M_bind. by rewrite Hm. Qed.

(** Unfolds the monad and the effect primitives in the goal. *)
Ltac run_monad :=
  cbv [mbind M_bind mret M_ret lift raise emit logger_debug logger_info logger_warning
       update_progress_callback path_exists run py_in py_getitem default from_option id].

Lemma eq_str_true v s : eq_str v s = true <-> v = PyStr s.
Proof.
  destruct v; cbn; try (split; [discriminate | intros [=]]).
  rewrite String.eqb_eq. split; [by intros -> | by intros [= ->]].
Qed.

Lemma eq_str_false v s : v <> PyStr s -> eq_str v s = false.
Proof. intros Hne. destruct (eq_str v s) eqn:E; [|done]. by apply eq_str_true in E. Qed.

(** ** The log line handler: what each part does *)

Section ProcessStderrFacts.
Context (rt : PyRuntime).

Lemma parse_line_some line v fs :
  json_loads rt line = Some v -> parse_line rt line fs = (inr v, fs, []).
Proof. intros H. unfold parse_line. by rewrite H. Qed.

Lemma parse_line_none line fs :
  json_loads rt line = None ->
  parse_line rt line fs =
  (inr PyNone, fs,
   [Log Debug (PyStr "Failed to parse JSON log line. Ensure that ArtifactTool structured logging is enabled.")]).
Proof. intros H. unfold parse_line. by rewrite H. Qed.

(** Lines 109-124 on an object. *)
Lemma log_message_dict line kvs fs :
  log_message rt line (PyDict kvs) fs =
  match dict_get "@m" kvs with
  | None => (inr tt, fs, [Log Debug (PyStr line)])
  | Some message =>
      let log_level := default (PyStr "Information") (dict_get "@l" kvs) in
      if eq_str log_level "Critical" || eq_str log_level "Error" then
        let ex := default PyNone (dict_get "@x" kvs) in
        (inl (CLIError (if truthy ex
                        then PyStr (py_str rt message +:+ Str.newline +:+ py_str rt ex)
                        else message)), fs, [])
      else (inr tt, fs, [Log (level_of log_level) message])
  end.
Proof.
  unfold log_message. run_monad.
  destruct (dict_get "@m" kvs) as [message|]; [|reflexivity].
  destruct (dict_get "@l" kvs) as [log_level|].
  - destruct (eq_str log_level "Critical" || eq_str log_level "Error").
    + destruct (dict_get "@x" kvs); reflexivity.
    + unfold level_of. destruct (eq_str log_level "Warning"); [reflexivity|].
      destruct (eq_str log_level "Information"); reflexivity.
  - reflexivity.
Qed.

(** Lines 109-124 on an object without an error message: one logger
    call, no exception. *)
Lemma log_message_quiet line kvs fs :
  no_error_message kvs ->
  exists lvl msg, log_message rt line (PyDict kvs) fs = (inr tt, fs, [Log lvl msg]).
Proof.
  intros Hq. rewrite log_message_dict.
  destruct (dict_get "@m" kvs) as [message|] eqn:Hm; [|by eauto].
  destruct Hq as [Hq|[Hc He]]; [by rewrite Hm in Hq|].
  destruct (dict_get "@l" kvs) as [log_level|] eqn:Hl; cbn [default from_option id].
  - rewrite !eq_str_false by congruence. cbn [orb]. by eauto.
  - cbn. by eauto.
Qed.

(** Lines 109-124 on [None]: the line goes to the debug log. *)
Lemma log_message_none line fs :
  log_message rt line PyNone fs = (inr tt, fs, [Log Debug (PyStr line)]).
Proof. reflexivity. Qed.

Lemma report_progress_none fs : report_progress rt PyNone fs = (inr tt, fs, []).
Proof. reflexivity. Qed.

(** One block of lines 129-145 when the event is the block's. *)
Lemma progress_block_hit kvs name done_key total_key label unit_name d t df tf fs :
  dict_get done_key kvs = Some d ->
  dict_get total_key kvs = Some t ->
  py_float rt d = inr df ->
  py_float rt t = inr tf ->
  nonzero tf ->
  progress_block rt (PyDict kvs) (PyStr name) name done_key total_key label unit_name fs =
  (inr tt, fs,
   [Progress (label +:+ ": " +:+ py_str rt d +:+ "/" +:+ py_str rt t +:+ " " +:+ unit_name)
             (SFdiv prec emax (float_mul (float_of_Z 100) df) tf)]).
Proof.
  intros Hd Ht Hdf Htf Hnz. unfold progress_block, eq_str. rewrite String.eqb_refl.
  run_monad. rewrite Hd, Ht, Hdf, Htf. unfold float_div.
  destruct tf as [s| | |]; [by destruct (Hnz s)| | |]; reflexivity.
Qed.

(** One block of lines 129-145 when the event is another one. *)
Lemma progress_block_miss json_line name other done_key total_key label unit_name fs :
  name <> other ->
  progress_block rt json_line (PyStr name) other done_key total_key label unit_name fs =
  (inr tt, fs, []).
Proof.
  intros Hne. unfold progress_block, eq_str.
  by rewrite (proj2 (String.eqb_neq name other) Hne).
Qed.

(** Lines 126-128 on an object with an event descriptor. *)
Lemma report_progress_dict kvs ev event_name fs :
  dict_get "EventId" kvs = Some (PyDict ev) ->
  dict_get "Name" ev = Some event_name ->
  report_progress rt (PyDict kvs) fs =
  (progress_block rt (PyDict kvs) event_name
     "ProcessingFiles" "ProcessedFiles" "TotalFiles" "Pre-upload processing" "files" ;;
   progress_block rt (PyDict kvs) event_name
     "Uploading" "UploadedBytes" "TotalBytes" "Uploading" "bytes" ;;
   progress_block rt (PyDict kvs) event_name
     "Downloading" "DownloadedBytes" "TotalBytes" "Downloading" "bytes") fs.
Proof.
  intros He Hn. unfold report_progress.
  assert (Htruthy : truthy (PyDict kvs) = true) by (by destruct kvs).
  rewrite Htruthy. run_monad. rewrite He. cbn beta iota. rewrite Hn. cbn beta iota.
  repeat match goal with
         | |- context [progress_block ?a ?b ?c ?d ?e ?f ?g ?h ?i] =>
             destruct (progress_block a b c d e f g h i) as [[[?|[]] ?] ?]
         end; reflexivity.
Qed.

End ProcessStderrFacts.

Section ProcessStderrRuns.
Context (rt : PyRuntime).

(** After a successful parse the handler is its two parts in a row. *)
Lemma process_stderr_parsed line v fs :
  json_loads rt line = Some v ->
  _process_stderr rt line fs = (log_message rt line v ;; report_progress rt v) fs.
Proof.
  intros H. unfold _process_stderr.
  set (k := fun json_line => log_message rt line json_line ;; report_progress rt json_line).
  change ((parse_line rt line ≫= k) fs = k v fs).
  destruct (k v fs) as [[r fs2] t2] eqn:Hk.
  by eapply run_bind_ok; [apply parse_line_some| |].
Qed.

(** An object with an error message: the handler raises at line 116,
    before any logger or callback call. *)
Lemma process_stderr_error line kvs message log_level fs :
  json_loads rt line = Some (PyDict kvs) ->
  dict_get "@m" kvs = Some message ->
  dict_get "@l" kvs = Some (PyStr log_level) ->
  log_level = "Critical" \/ log_level = "Error" ->
  _process_stderr rt line fs =
  (inl (CLIError (if truthy (default PyNone (dict_get "@x" kvs))
                  then PyStr (py_str rt message +:+ Str.newline +:+
                              py_str rt (default PyNone (dict_get "@x" kvs)))
                  else message)), fs, []).
Proof.
  intros Hp Hm Hl Hlvl. rewrite (process_stderr_parsed _ _ _ Hp).
  apply run_bind_raise. rewrite log_message_dict, Hm, Hl.
  by destruct Hlvl as [-> | ->].
Qed.

(** A recognised event with counts that convert, on an object: the
    callback is called once, with the percentage. *)
Lemma report_progress_recognised kvs ev name done_key total_key d t df tf fs :
  dict_get "EventId" kvs = Some (PyDict ev) ->
  dict_get "Name" ev = Some (PyStr name) ->
  In (name, done_key, total_key) recognised_events ->
  dict_get done_key kvs = Some d ->
  dict_get total_key kvs = Some t ->
  py_float rt d = inr df ->
  py_float rt t = inr tf ->
  nonzero tf ->
  exists label unit_name,
    report_progress rt (PyDict kvs) fs =
    (inr tt, fs,
     [Progress (label +:+ ": " +:+ py_str rt d +:+ "/" +:+ py_str rt t +:+ " " +:+ unit_name)
               (SFdiv prec emax (float_mul (float_of_Z 100) df) tf)]) /\
    (name = "Downloading" -> label = "Downloading" /\ unit_name = "bytes").
Proof.
  intros He Hn Hin Hd Ht Hdf Htf Hnz.
  rewrite (report_progress_dict rt kvs ev (PyStr name) fs He Hn).
  destruct Hin as [[= <- <- <-]|[[= <- <- <-]|[[= <- <- <-]|[]]]].
  - exists "Pre-upload processing", "files". split; [|done].
    eapply run_bind_ok; [by apply progress_block_hit| |reflexivity].
    eapply run_bind_ok; [by apply progress_block_miss| |reflexivity].
    by apply progress_block_miss.
  - exists "Uploading", "bytes". split; [|done].
    eapply run_bind_ok; [by apply progress_block_miss| |reflexivity].
    eapply run_bind_ok; [by apply progress_block_hit| |reflexivity].
    by apply progress_block_miss.
  - exists "Downloading", "bytes". split; [|done].
    eapply run_bind_ok; [by apply progress_block_miss| |reflexivity].
    eapply run_bind_ok; [by apply progress_block_miss| |reflexivity].
    by apply progress_block_hit.
Qed.

(** The whole handler on such a line, when the message part is quiet. *)
Lemma process_stderr_progress line kvs ev name done_key total_key d t df tf fs :
  json_loads rt line = Some (PyDict kvs) ->
  no_error_message kvs ->
  dict_get "EventId" kvs = Some (PyDict ev) ->
  dict_get "Name" ev = Some (PyStr name) ->
  In (name, done_key, total_key) recognised_events ->
  dict_get done_key kvs = Some d ->
  dict_get total_key kvs = Some t ->
  py_float rt d = inr df ->
  py_float rt t = inr tf ->
  nonzero tf ->
  exists lvl msg label unit_name,
    _process_stderr rt line fs =
    (inr tt, fs,
     [Log lvl msg;
      Progress (label +:+ ": " +:+ py_str rt d +:+ "/" +:+ py_str rt t +:+ " " +:+ unit_name)
               (SFdiv prec emax (float_mul (float_of_Z 100) df) tf)]) /\
    (name = "Downloading" -> label = "Downloading" /\ unit_name = "bytes").
Proof.
  intros Hp Hq He Hn Hin Hd Ht Hdf Htf Hnz.
  destruct (log_message_quiet rt line kvs fs Hq) as (lvl & msg & Hlog).
  destruct (report_progress_recognised kvs ev name done_key total_key d t df tf fs
              He Hn Hin Hd Ht Hdf Htf Hnz) as (label & unit_name & Hrep & Hname).
  exists lvl, msg, label, unit_name. split; [|done].
  rewrite (process_stderr_parsed _ _ _ Hp).
  by eapply run_bind_ok; [exact Hlog|exact Hrep|].
Qed.

End ProcessStderrRuns.

(** ** Properties of the log line handler *)

(** C1, as stated, fails in its second half: the line
    [{"@l":"Error","@m":"X","@x":0}] contains an exception field, whose
    text is 0, and the handler raises [CLIError] with the text X alone:
    line 114 appends the exception only when Python counts it as true. *)
Lemma falsy_exception_left_out :
  json_loads MoreSamples.runtime MoreSamples.zero_exception_line
    = Some (PyDict [("@l", PyStr "Error"); ("@m", PyStr "X"); ("@x", PyInt 0)]) /\
  outcome (_process_stderr MoreSamples.runtime MoreSamples.zero_exception_line ∅)
    = inl (CLIError (PyStr "X")) /\
  error_text MoreSamples.runtime (CLIError (PyStr "X")) = Some "X" /\
  py_str MoreSamples.runtime (PyInt 0) = "0" /\
  ~ Str.Contains "X" "0".
Proof.
  repeat split; try reflexivity.
  intros (before & after & H). destruct before as [|c before].
  - discriminate H.
  - injection H as _ H. destruct before; discriminate H.
Qed.

(** C1, amended.  A line that parses to an object with a message ['@m']
    and a severity ['@l'] equal to "Critical" or "Error" makes
    [_process_stderr] raise a [CLIError] whose text contains the text of the
    message; when the object also has an exception field ['@x'] that is a
    string (or any value Python counts as true), the text contains the
    exception text too. *)
Theorem error_line_raises rt line kvs message log_level fs :
  json_loads rt line = Some (PyDict kvs) ->
  dict_get "@m" kvs = Some message ->
  dict_get "@l" kvs = Some (PyStr log_level) ->
  log_level = "Critical" \/ log_level = "Error" ->
  exists e text,
    outcome (_process_stderr rt line fs) = inl e /\
    error_text rt e = Some text /\
    Str.Contains text (py_str rt message) /\
    (forall ex, dict_get "@x" kvs = Some ex ->
       truthy ex = true \/ (exists s, ex = PyStr s) ->
       Str.Contains text (py_str rt message) /\ Str.Contains text (py_str rt ex)).
Proof.
  intros Hp Hm Hl Hlvl.
  rewrite (process_stderr_error rt line kvs message log_level fs Hp Hm Hl Hlvl).
  eexists _, _. split; [reflexivity|]. split; [reflexivity|].
  destruct (dict_get "@x" kvs) as [x|]; cbn [default from_option id].
  - destruct (truthy x) eqn:Hx; cbn [py_str].
    + split; [auto with contains|]. intros ex [= <-] _. auto with contains.
    + split; [auto with contains|]. intros ex [= <-] [Ht|[s ->]]; [congruence|].
      split; [auto with contains|]. cbn in Hx. apply negb_false_iff, String.eqb_eq in Hx.
      subst s. apply Contains_empty.
  - cbn [truthy]. split; [auto with contains|]. intros ex [=].
Qed.

Lemma error_line_raises_witness :
  exists e text,
    outcome (_process_stderr Samples.runtime Samples.critical_line ∅) = inl e /\
    error_text Samples.runtime e = Some text /\
    Str.Contains text "X" /\
    (forall ex, dict_get "@x" [("@l", PyStr "Critical"); ("@m", PyStr "X"); ("@x", PyStr "trace")]
                = Some ex ->
       truthy ex = true \/ (exists s, ex = PyStr s) ->
       Str.Contains text "X" /\ Str.Contains text (py_str Samples.runtime ex)).
Proof.
  apply (error_line_raises Samples.runtime Samples.critical_line
           [("@l", PyStr "Critical"); ("@m", PyStr "X"); ("@x", PyStr "trace")]
           (PyStr "X") "Critical" ∅).
  - reflexivity.
  - reflexivity.
  - reflexivity.
  - left. reflexivity.
Defined.

(** C4.  A line that is no JSON never reaches the progress callback and
    raises nothing: the handler logs the parse failure and then the whole
    line, both at debug level. *)
Theorem unparsable_line_is_debug_text rt line fs :
  json_loads rt line = None ->
  let r := _process_stderr rt line fs in
  outcome r = inr tt /\
  progress_calls (trace r) = [] /\
  trace r =
    [Log Debug (PyStr "Failed to parse JSON log line. Ensure that ArtifactTool structured logging is enabled.");
     Log Debug (PyStr line)].
Proof.
  intros H.
  assert (Hrun : _process_stderr rt line fs =
    (inr tt, fs,
     [Log Debug (PyStr "Failed to parse JSON log line. Ensure that ArtifactTool structured logging is enabled.");
      Log Debug (PyStr line)])).
  { unfold _process_stderr.
    eapply run_bind_ok; [by apply parse_line_none| |reflexivity].
    eapply run_bind_ok; [apply log_message_none|apply report_progress_none|reflexivity]. }
  cbv zeta. by rewrite Hrun.
Qed.

Lemma unparsable_line_is_debug_text_witness :
  let r := _process_stderr Samples.runtime Samples.plain_line ∅ in
  outcome r = inr tt /\
  progress_calls (trace r) = [] /\
  trace r =
    [Log Debug (PyStr "Failed to parse JSON log line. Ensure that ArtifactTool structured logging is enabled.");
     Log Debug (PyStr Samples.plain_line)].
Proof.
  apply (unparsable_line_is_debug_text Samples.runtime Samples.plain_line ∅).
  reflexivity.
Defined.

(** C2, as stated, fails: on the line
    [{"@l":"Error","@m":"X","EventId":{"Name":"Downloading"},"DownloadedBytes":50,"TotalBytes":200}]
    the object has a recognised event with both counts, yet the handler
    raises at the message and the progress callback is never called. *)
Lemma progress_skipped_on_error_line :
  json_loads Samples.runtime Samples.failed_download_line
    = Some Samples.failed_download_value /\
  Samples.failed_download_value =
    PyDict [("@l", PyStr "Error"); ("@m", PyStr "X");
            ("EventId", PyDict [("Name", PyStr "Downloading")]);
            ("DownloadedBytes", PyInt 50); ("TotalBytes", PyInt 200)] /\
  outcome (_process_stderr Samples.runtime Samples.failed_download_line ∅)
    = inl (CLIError (PyStr "X")) /\
  progress_calls (trace (_process_stderr Samples.runtime Samples.failed_download_line ∅)) = [].
Proof. repeat split; reflexivity. Qed.

(** C2, amended.  A line that parses to an object whose event descriptor
    names ProcessingFiles, Uploading or Downloading, with both counts
    present and convertible to floats and a total that is not zero, and
    that carries no message of severity Critical or Error, makes the
    handler return normally after calling the progress callback exactly
    once, with 100 * done / total as the percentage. *)
Theorem progress_reported_without_error rt line kvs ev name done_key total_key d t df tf fs :
  json_loads rt line = Some (PyDict kvs) ->
  no_error_message kvs ->
  dict_get "EventId" kvs = Some (PyDict ev) ->
  dict_get "Name" ev = Some (PyStr name) ->
  In (name, done_key, total_key) recognised_events ->
  dict_get done_key kvs = Some d ->
  dict_get total_key kvs = Some t ->
  py_float rt d = inr df ->
  py_float rt t = inr tf ->
  nonzero tf ->
  let r := _process_stderr rt line fs in
  outcome r = inr tt /\
  snd <$> progress_calls (trace r) = [SFdiv prec emax (float_mul (float_of_Z 100) df) tf].
Proof.
  intros Hp Hq He Hn Hin Hd Ht Hdf Htf Hnz.
  destruct (process_stderr_progress rt line kvs ev name done_key total_key d t df tf fs
              Hp Hq He Hn Hin Hd Ht Hdf Htf Hnz) as (lvl & msg & label & unit_name & Hrun & _).
  cbv zeta. rewrite Hrun. split; reflexivity.
Qed.

Lemma progress_reported_without_error_witness :
  let r := _process_stderr Samples.runtime Samples.downloading_line ∅ in
  outcome r = inr tt /\
  snd <$> progress_calls (trace r) = [float_of_Z 25].
Proof.
  apply (progress_reported_without_error Samples.runtime Samples.downloading_line
           [("EventId", PyDict [("Name", PyStr "Downloading")]);
            ("DownloadedBytes", PyInt 50); ("TotalBytes", PyInt 200)]
           [("Name", PyStr "Downloading")]
           "Downloading" "DownloadedBytes" "TotalBytes" (PyInt 50) (PyInt 200)
           (float_of_Z 50) (float_of_Z 200) ∅).
  - reflexivity.
  - left. reflexivity.
  - reflexivity.
  - reflexivity.
  - right. right. left. reflexivity.
  - reflexivity.
  - reflexivity.
  - reflexivity.
  - reflexivity.
  - intros s. discriminate.
Defined.

(** C5, as stated, fails: the line
    [{"@l":"Critical","@m":"X","@x":"trace","EventId":{"Name":"Downloading"},"DownloadedBytes":50,"TotalBytes":200}]
    parses to an object with the event Downloading, 50 bytes of 200, and
    the callback is not called: the handler raises first. *)
Lemma downloading_skipped_on_critical_line :
  json_loads Samples.runtime Samples.aborted_download_line
    = Some Samples.aborted_download_value /\
  Samples.aborted_download_value =
    PyDict [("@l", PyStr "Critical"); ("@m", PyStr "X"); ("@x", PyStr "trace");
            ("EventId", PyDict [("Name", PyStr "Downloading")]);
            ("DownloadedBytes", PyInt 50); ("TotalBytes", PyInt 200)] /\
  progress_calls (trace (_process_stderr Samples.runtime Samples.aborted_download_line ∅)) = [] /\
  exists message,
    outcome (_process_stderr Samples.runtime Samples.aborted_download_line ∅)
      = inl (CLIError message).
Proof. repeat split; try reflexivity. eexists. reflexivity. Qed.

(** C5, amended.  A line that parses to an object with the event
    Downloading, counts DownloadedBytes and TotalBytes that convert to
    floats, a total that is not zero, and no message of severity Critical
    or Error, makes the handler call the progress callback once, with the
    percentage 100 * DownloadedBytes / TotalBytes in float arithmetic and
    the message "Downloading: X/Y bytes", which contains both counts; for
    50 of 200 the percentage is 25.0 and the message is
    "Downloading: 50/200 bytes". *)
Theorem downloading_progress rt line kvs ev d t df tf fs :
  json_loads rt line = Some (PyDict kvs) ->
  no_error_message kvs ->
  dict_get "EventId" kvs = Some (PyDict ev) ->
  dict_get "Name" ev = Some (PyStr "Downloading") ->
  dict_get "DownloadedBytes" kvs = Some d ->
  dict_get "TotalBytes" kvs = Some t ->
  py_float rt d = inr df ->
  py_float rt t = inr tf ->
  nonzero tf ->
  let r := _process_stderr rt line fs in
  let message := "Downloading: " +:+ py_str rt d +:+ "/" +:+ py_str rt t +:+ " bytes" in
  outcome r = inr tt /\
  progress_calls (trace r) = [(message, SFdiv prec emax (float_mul (float_of_Z 100) df) tf)] /\
  Str.Contains message (py_str rt d) /\
  Str.Contains message (py_str rt t) /\
  (d = PyInt 50 -> t = PyInt 200 ->
   progress_calls (trace r) = [("Downloading: 50/200 bytes", float_of_Z 25)]).
Proof.
  intros Hp Hq He Hn Hd Ht Hdf Htf Hnz.
  destruct (process_stderr_progress rt line kvs ev "Downloading" "DownloadedBytes" "TotalBytes"
              d t df tf fs Hp Hq He Hn) as (lvl & msg & label & unit_name & Hrun & Hname);
    [right; right; left; reflexivity|done..|].
  destruct (Hname eq_refl) as [-> ->].
  cbv zeta. rewrite Hrun. split; [reflexivity|]. split; [reflexivity|].
  split; [|split].
  - apply (Contains_app_r "Downloading: "), Contains_app_l, Contains_refl.
  - apply (Contains_app_r "Downloading: "), Contains_app_r, (Contains_app_r "/"),
      Contains_app_l, Contains_refl.
  - intros -> ->. cbn in Hdf, Htf. injection Hdf as <-. injection Htf as <-. reflexivity.
Qed.

Lemma downloading_progress_witness :
  let r := _process_stderr Samples.runtime Samples.downloading_line ∅ in
  let message := "Downloading: 50/200 bytes" in
  outcome r = inr tt /\
  progress_calls (trace r) =
    [(message, SFdiv prec emax (float_mul (float_of_Z 100) (float_of_Z 50)) (float_of_Z 200))] /\
  Str.Contains message "50" /\
  Str.Contains message "200" /\
  (PyInt 50 = PyInt 50 -> PyInt 200 = PyInt 200 ->
   progress_calls (trace r) = [("Downloading: 50/200 bytes", float_of_Z 25)]).
Proof.
  apply (downloading_progress Samples.runtime Samples.downloading_line
           [("EventId", PyDict [("Name", PyStr "Downloading")]);
            ("DownloadedBytes", PyInt 50); ("TotalBytes", PyInt 200)]
           [("Name", PyStr "Downloading")]
           (PyInt 50) (PyInt 200) (float_of_Z 50) (float_of_Z 200) ∅).
  - reflexivity.
  - left. reflexivity.
  - reflexivity.
  - reflexivity.
  - reflexivity.
  - reflexivity.
  - reflexivity.
  - reflexivity.
  - intros s. discriminate.
Defined.

(** C10, as stated, fails in its last part: the line [null] parses, to
    [None], a value that is no container, and the handler raises nothing;
    it sends the line to the debug log, the path of a parse failure. *)
Lemma null_line_takes_debug_path :
  json_loads Samples.runtime "null" = Some PyNone /\
  _process_stderr Samples.runtime "null" ∅ = (inr tt, ∅, [Log Debug (PyStr "null")]).
Proof. split; reflexivity. Qed.

(** C10, amended.  A line that parses to a number or to a boolean (the
    line [123], say) makes the handler raise a [TypeError] at the
    membership test for ['@m'], before any logger or callback call; a line
    that parses to [null] raises nothing and goes to the debug log as a
    whole, as a line that fails to parse does. *)
Theorem scalar_line_raises rt line v fs :
  json_loads rt line = Some v ->
  ((exists z, v = PyInt z) \/ (exists f, v = PyFloat f) \/ (exists b, v = PyBool b) ->
   _process_stderr rt line fs = (inl TypeError, fs, [])) /\
  (v = PyNone ->
   _process_stderr rt line fs = (inr tt, fs, [Log Debug (PyStr line)])).
Proof.
  intros Hp. rewrite (process_stderr_parsed rt line v fs Hp). split.
  - intros [[z ->]|[[f ->]|[b ->]]]; reflexivity.
  - intros ->. reflexivity.
Qed.

Lemma scalar_line_raises_witness :
  _process_stderr Samples.runtime "123" ∅ = (inl TypeError, ∅, []).
Proof.
  apply (proj1 (scalar_line_raises Samples.runtime "123" (PyInt 123) ∅ eq_refl)).
  left. exists 123%Z. reflexivity.
Defined.

(** ** The updater and the invoker: what each run does *)

Section UpdaterFacts.
Context (rt : PyRuntime) (w : World).

(** The override of the path: one logger call, nothing else. *)
Lemma get_latest_override team p fs :
  environ w !! ARTIFACTTOOL_OVERRIDE_PATH_ENVKEY = Some p ->
  get_latest_artifacttool rt w team fs =
  (inr p, fs,
   [Log Debug (PyStr ("ArtifactTool path was overriden to '" +:+ p +:+
      "' due to environment variable " +:+ ARTIFACTTOOL_OVERRIDE_PATH_ENVKEY))]).
Proof. intros H. unfold get_latest_artifacttool. by rewrite H. Qed.

(** The update check when the binary of the current tag is present. *)
Lemma update_cached team header fs :
  http_head w (binary_url w) = Some (Some header) ->
  binary_path_of rt w (etag_of_header header) ∈ fs ->
  let r := _update_artifacttool rt w team fs in
  outcome r = inr (binary_path_of rt w (etag_of_header header)) /\
  disk r = fs /\
  effects (trace r) = [HttpHead (binary_url w)].
Proof.
  intros Hhead Hin. cbv zeta.
  unfold _update_artifacttool, requests_head. run_monad.
  rewrite Hhead.
  destruct (environ w !! ARTIFACTTOOL_OVERRIDE_URL_ENVKEY); cbn beta iota;
    rewrite (bool_decide_eq_true_2 _ Hin); repeat split; reflexivity.
Qed.

(** The updater never calls the subprocess runner. *)
Lemma get_latest_no_run team fs :
  run_calls (trace (get_latest_artifacttool rt w team fs)) = [].
Proof.
  unfold get_latest_artifacttool, _update_artifacttool, requests_head, requests_get,
    zip_extractall.
  run_monad. repeat case_match; simplify_eq; reflexivity.
Qed.

(** [invoke_artifacttool], by the outcome of the updater and of the
    credential service. *)
Lemma invoke_artifacttool_run team args label fs :
  invoke_artifacttool rt w team args label fs =
  match get_latest_artifacttool rt w team fs with
  | (inl e, fs1, t) => (inl e, fs1, t)
  | (inr tool, fs1, t) =>
      match credentials_password w team with
      | Some password =>
          (inr tt, fs1, t ++ [Run (tool :: args) (<[PATVAR := password]> (environ w)) label])
      | None => (inl CredentialError, fs1, t)
      end
  end.
Proof.
  unfold invoke_artifacttool, _get_credentials. run_monad.
  destruct (get_latest_artifacttool rt w team fs) as [[[e|tool] fs1] t]; [reflexivity|].
  destruct (credentials_password w team); cbn; by rewrite ?app_nil_r.
Qed.

Lemma run_calls_app t1 t2 : run_calls (t1 ++ t2) = run_calls t1 ++ run_calls t2.
Proof. unfold run_calls. apply omap_app. Qed.

(** The calls of the runner made by [invoke_artifacttool]: one, when
    the updater returns a path and a credential resolves. *)
Lemma invoke_artifacttool_calls team args label fs tool password :
  outcome (get_latest_artifacttool rt w team fs) = inr tool ->
  credentials_password w team = Some password ->
  outcome (invoke_artifacttool rt w team args label fs) = inr tt /\
  run_calls (trace (invoke_artifacttool rt w team args label fs)) =
  [(tool :: args, <[PATVAR := password]> (environ w), label)].
Proof.
  intros Htool Hcred. rewrite invoke_artifacttool_run, Hcred.
  pose proof (get_latest_no_run team fs) as Hno.
  destruct (get_latest_artifacttool rt w team fs) as [[[e|tool'] fs1] t]; [done|].
  change (run_calls t = []) in Hno. cbn in Htool. injection Htool as ->.
  split; [reflexivity|]. cbn [trace snd]. by rewrite run_calls_app, Hno.
Qed.

(** Every call of the runner made by [invoke_artifacttool] carries the
    given label. *)
Lemma invoke_artifacttool_label team args label fs call :
  In call (run_calls (trace (invoke_artifacttool rt w team args label fs))) ->
  call.2 = label.
Proof.
  rewrite invoke_artifacttool_run.
  pose proof (get_latest_no_run team fs) as Hno.
  destruct (get_latest_artifacttool rt w team fs) as [[[e|tool] fs1] t];
    change (run_calls t = []) in Hno.
  - cbn [trace snd]. by rewrite Hno.
  - destruct (credentials_password w team); cbn [trace snd].
    + rewrite run_calls_app, Hno. by intros [<-|[]].
    + by rewrite Hno.
Qed.

End UpdaterFacts.

(** A network request is no logger call. *)
Lemma network_requests_effects t : network_requests t = network_requests (effects t).
Proof.
  unfold network_requests, effects. induction t as [|ev t IH]; [done|].
  destruct ev; cbn [List.filter is_log is_request negb]; by rewrite ?IH.
Qed.

(** ** Properties of the invoker and of the updater *)

(** C3.  When the updater returns a tool path and a credential resolves
    for the endpoint, [download_upack] and [publish_upack] each call the
    runner once, with the environment equal to [os.environ] plus the one
    entry VSTS_ARTIFACTTOOL_PATVAR holding the secret.  The argument list
    does not depend on the secret: with any other credential service the
    lists are the same; and a secret that is none of the caller's values
    nor one of the fixed words is no element of the list. *)
Theorem credential_only_in_environment
    rt w team feed name version description path secret fs tool :
  outcome (get_latest_artifacttool rt w team fs) = inr tool ->
  credentials_password w team = Some secret ->
  let dl := download_upack rt w team feed name version path fs in
  let pb := publish_upack rt w team feed name version description path fs in
  let new_env := <[PATVAR := secret]> (environ w) in
  run_calls (trace dl) =
    [(tool :: download_args team feed name version path, new_env, "Downloading")] /\
  run_calls (trace pb) =
    [(tool :: publish_args team feed name version description path, new_env, "Publishing")] /\
  new_env !! PATVAR = Some secret /\
  (forall k, k <> PATVAR -> new_env !! k = environ w !! k) /\
  (forall f other, f team = Some other ->
     (fun c => c.1.1) <$> run_calls (trace (download_upack rt (set_credentials w f)
                                             team feed name version path fs))
       = (fun c => c.1.1) <$> run_calls (trace dl) /\
     (fun c => c.1.1) <$> run_calls (trace (publish_upack rt (set_credentials w f)
                                             team feed name version description path fs))
       = (fun c => c.1.1) <$> run_calls (trace pb)) /\
  (~ In secret fixed_words ->
   ~ In secret [tool; team; feed; name; version; path] ->
   description <> Some secret ->
   ~ In secret (tool :: download_args team feed name version path) /\
   ~ In secret (tool :: publish_args team feed name version description path)).
Proof.
  intros Htool Hcred. cbv zeta. unfold download_upack, publish_upack.
  destruct (invoke_artifacttool_calls rt w team
              (download_args team feed name version path) "Downloading" fs tool secret
              Htool Hcred) as [_ Hdl].
  destruct (invoke_artifacttool_calls rt w team
              (publish_args team feed name version description path) "Publishing" fs tool secret
              Htool Hcred) as [_ Hpb].
  rewrite Hdl, Hpb.
  split; [reflexivity|]. split; [reflexivity|].
  split; [apply lookup_insert_eq|].
  split; [intros k Hk; by apply lookup_insert_ne|].
  split.
  - intros f other Hf.
    destruct (invoke_artifacttool_calls rt (set_credentials w f) team
                (download_args team feed name version path) "Downloading" fs tool other
                Htool Hf) as [_ ->].
    destruct (invoke_artifacttool_calls rt (set_credentials w f) team
                (publish_args team feed name version description path) "Publishing" fs tool other
                Htool Hf) as [_ ->].
    split; reflexivity.
  - intros Hfixed Hpublic Hdesc.
    assert (Hbase : ~ In secret
      [tool; "upack"; "publish"; "--service"; team; "--patvar"; PATVAR; "--feed"; feed;
       "--package-name"; name; "--package-version"; version; "--path"; path]).
    { intros Hb. apply Hpublic. cbn in Hb, Hfixed |- *. intuition. }
    split.
    + intros Hin. apply Hpublic. cbn in Hin, Hfixed |- *. intuition.
    + intros Hin. unfold publish_args in Hin.
      destruct description as [d|]; [|done].
      destruct (String.eqb d ""); [done|].
      change (In secret ([tool; "upack"; "publish"; "--service"; team; "--patvar"; PATVAR;
         "--feed"; feed; "--package-name"; name; "--package-version"; version; "--path"; path] ++
         ["--description"; d])) in Hin.
      apply in_app_or in Hin as [Hin|[Hin|[Hin|[]]]]; [done| |].
      * apply Hfixed. cbn. intuition.
      * apply Hdesc. by subst.
Qed.

Lemma credential_only_in_environment_witness :
  let w := Samples.world ∅ "s3cr3t" in
  let fs : gset string := {[Samples.cached_binary]} in
  let new_env : gmap string string := <[PATVAR := "s3cr3t"]> ∅ in
  run_calls (trace (download_upack Samples.runtime w "https://dev.example" "feed" "pkg" "1.0" "out" fs)) =
    [(Samples.cached_binary :: download_args "https://dev.example" "feed" "pkg" "1.0" "out",
      new_env, "Downloading")] /\
  ~ In "s3cr3t" (Samples.cached_binary :: download_args "https://dev.example" "feed" "pkg" "1.0" "out").
Proof.
  pose proof (credential_only_in_environment Samples.runtime (Samples.world ∅ "s3cr3t")
                "https://dev.example" "feed" "pkg" "1.0" (Some "notes") "out" "s3cr3t"
                {[Samples.cached_binary]} Samples.cached_binary) as H.
  destruct H as (Hdl & _ & _ & _ & _ & Habsent).
  - vm_compute. reflexivity.
  - reflexivity.
  - cbv zeta. split; [exact Hdl|]. apply Habsent.
    + cbn. intros H. repeat (destruct H as [H|H]; [discriminate H|]). exact H.
    + cbn. intros H. repeat (destruct H as [H|H]; [discriminate H|]). exact H.
    + discriminate.
Defined.

(** C6.  With VSTS_ARTIFACTTOOL_OVERRIDE_PATH set, [get_latest_artifacttool]
    returns that very string, whatever the disk holds, and does nothing
    else than log one debug message: no network request, no change on
    disk. *)
Theorem override_path_verbatim rt w team p fs :
  environ w !! ARTIFACTTOOL_OVERRIDE_PATH_ENVKEY = Some p ->
  let r := get_latest_artifacttool rt w team fs in
  outcome r = inr p /\
  disk r = fs /\
  network_requests (trace r) = [] /\
  effects (trace r) = [].
Proof.
  intros H. cbv zeta. rewrite (get_latest_override rt w team p fs H). repeat split.
Qed.

Lemma override_path_verbatim_witness :
  let w := Samples.world {[ARTIFACTTOOL_OVERRIDE_PATH_ENVKEY := "no/such/tool"]} "s3cr3t" in
  let r := get_latest_artifacttool Samples.runtime w "https://dev.example" ∅ in
  outcome r = inr "no/such/tool" /\
  disk r = ∅ /\
  network_requests (trace r) = [] /\
  effects (trace r) = [].
Proof.
  apply (override_path_verbatim Samples.runtime
           (Samples.world {[ARTIFACTTOOL_OVERRIDE_PATH_ENVKEY := "no/such/tool"]} "s3cr3t")
           "https://dev.example" "no/such/tool" ∅).
  vm_compute. reflexivity.
Defined.

(** C7.  With no path override, when the HEAD request answers with an
    ETag and the binary path computed from it exists, the updater returns
    that path; its only effect besides logging is that one HEAD request:
    no GET, no extraction, and the disk is left as it was. *)
Theorem cached_binary_reused rt w team header fs :
  environ w !! ARTIFACTTOOL_OVERRIDE_PATH_ENVKEY = None ->
  http_head w (binary_url w) = Some (Some header) ->
  binary_path_of rt w (etag_of_header header) ∈ fs ->
  let r := get_latest_artifacttool rt w team fs in
  outcome r = inr (binary_path_of rt w (etag_of_header header)) /\
  disk r = fs /\
  network_requests (trace r) = [HttpHead (binary_url w)] /\
  effects (trace r) = [HttpHead (binary_url w)].
Proof.
  intros Hnone Hhead Hin. cbv zeta.
  destruct (update_cached rt w team header fs Hhead Hin) as (Hout & Hdisk & Heff).
  unfold get_latest_artifacttool. rewrite Hnone. run_monad.
  destruct (_update_artifacttool rt w team fs) as [[[e|p] fs1] t]; [done|].
  unfold outcome, disk in Hout, Hdisk. cbn [fst snd] in Hout, Hdisk.
  injection Hout as ->. subst fs1.
  change (effects t = [HttpHead (binary_url w)]) in Heff.
  assert (Heff' : effects (Log Debug (PyStr "Checking for a new ArtifactTool") ::
      t ++ [Log Debug (PyStr ("Using downloaded ArtifactTool from '" +:+
        binary_path_of rt w (etag_of_header header) +:+ "'"))]) = [HttpHead (binary_url w)]).
  { unfold effects in *. cbn [List.filter is_log negb]. rewrite List.filter_app, Heff. reflexivity. }
  repeat split; cbn [outcome disk trace fst snd app]; [|exact Heff'].
  by rewrite network_requests_effects, Heff'.
Qed.

Lemma cached_binary_reused_witness :
  let w := Samples.world ∅ "s3cr3t" in
  let fs : gset string := {[Samples.cached_binary]} in
  let r := get_latest_artifacttool Samples.runtime w "https://dev.example" fs in
  let binary_path := binary_path_of Samples.runtime w (etag_of_header Samples.etag_header) in
  (outcome r = inr binary_path /\
   disk r = fs /\
   network_requests (trace r) = [HttpHead (binary_url w)] /\
   effects (trace r) = [HttpHead (binary_url w)]) /\
  binary_path = Samples.cached_binary /\
  binary_url w = DEFAULT_ARTIFACTTOOL_BINARY_URL.
Proof.
  cbv zeta. split; [|split; vm_compute; reflexivity].
  apply (cached_binary_reused Samples.runtime (Samples.world ∅ "s3cr3t")
           "https://dev.example" Samples.etag_header {[Samples.cached_binary]}).
  - vm_compute. reflexivity.
  - reflexivity.
  - apply elem_of_singleton. vm_compute. reflexivity.
Defined.

(** C8, as stated, fails: on the header value ["0x8D50x1F"] (quotes
    included) the code removes both occurrences of 0x and yields 8d51f,
    where the removal of a leading prefix alone yields 8d50x1f. *)
Lemma etag_inner_0x_removed :
  etag_of_header Samples.etag_header_twice = "8d51f" /\
  spec_version_tag Samples.etag_header_twice = "8d50x1f" /\
  etag_of_header Samples.etag_header_twice <> spec_version_tag Samples.etag_header_twice.
Proof. repeat split; [reflexivity..|discriminate]. Qed.

(** C8, amended.  The version tag is the ETag header value with the quote
    characters stripped at both ends, every occurrence of 0x removed (the
    leading one and any other, scanning left to right), and the rest
    lowercased: around any occurrence of 0x in the stripped value the tag
    is the tag of what precedes followed by the tag of what follows, and
    where 0x does not occur the characters are only lowercased. *)
Theorem etag_removes_every_0x header :
  (forall a b,
     Str.strip Str.dquote header = a +:+ "0x" +:+ b ->
     etag_of_header header =
       Str.lower (Str.replace "0x" "" a) +:+ Str.lower (Str.replace "0x" "" b)) /\
  (Str.contains "0x" (Str.strip Str.dquote header) = false ->
   etag_of_header header = Str.lower (Str.strip Str.dquote header)) /\
  (forall b,
     Str.strip Str.dquote header = "0x" +:+ b ->
     Str.contains "0x" b = false ->
     etag_of_header header = Str.lower b /\ etag_of_header header = spec_version_tag header).
Proof.
  unfold etag_of_header. split; [|split].
  - intros a b ->. by rewrite replace_0x_app, lower_app.
  - intros Habs. by rewrite replace_0x_absent.
  - intros b Hs Habs. rewrite Hs.
    assert (Hr : Str.replace "0x" "" ("0x" +:+ b) = b).
    { rewrite <- (replace_0x_absent b Habs) at 2. exact (replace_0x_app "" b). }
    rewrite Hr. split; [reflexivity|]. unfold spec_version_tag, remove_prefix. rewrite Hs.
    change ("0x" +:+ b) with (String "0" (String "x" b)).
    rewrite prefix_0x_cons. cbn [Ascii.eqb Bool.eqb andb String.prefix].
    destruct (ascii_dec "x" "x"); [|done]. rewrite prefix_empty.
    cbn [String.length Nat.sub String.substring]. by rewrite Nat.sub_0_r, substring_whole.
Qed.

Lemma etag_removes_every_0x_witness :
  etag_of_header Samples.etag_header_twice =
    Str.lower (Str.replace "0x" "" "") +:+ Str.lower (Str.replace "0x" "" "8D50x1F") /\
  (etag_of_header Samples.etag_header = Str.lower "8D5F3A" /\
   etag_of_header Samples.etag_header = spec_version_tag Samples.etag_header).
Proof.
  split.
  - apply (proj1 (etag_removes_every_0x Samples.etag_header_twice) "" "8D50x1F").
    reflexivity.
  - apply (proj2 (proj2 (etag_removes_every_0x Samples.etag_header)) "8D5F3A").
    + reflexivity.
    + reflexivity.
Defined.

(** C9, as stated, fails: the label [publish_upack] hands to the runner
    is "Publishing", not "Uploading". *)
Lemma publish_label_is_not_uploading :
  (fun c => c.2) <$>
    run_calls (trace (publish_upack Samples.runtime (Samples.world ∅ "s3cr3t")
                        "https://dev.example" "feed" "pkg" "1.0" None "src"
                        {[Samples.cached_binary]}))
  = ["Publishing"] /\
  "Publishing" <> "Uploading".
Proof. split; [vm_compute; reflexivity|discriminate]. Qed.

(** C9, amended.  The initial progress label handed to the subprocess
    runner is "Downloading" for [download_upack] and "Publishing" for
    [publish_upack]: every call of the runner carries it, and there is
    exactly one call whenever the updater returns a tool path and a
    credential resolves. *)
Theorem initial_progress_labels rt w team feed name version description path fs :
  let dl := download_upack rt w team feed name version path fs in
  let pb := publish_upack rt w team feed name version description path fs in
  (forall call, In call (run_calls (trace dl)) -> call.2 = "Downloading") /\
  (forall call, In call (run_calls (trace pb)) -> call.2 = "Publishing") /\
  (forall tool password,
     outcome (get_latest_artifacttool rt w team fs) = inr tool ->
     credentials_password w team = Some password ->
     (fun c => c.2) <$> run_calls (trace dl) = ["Downloading"] /\
     (fun c => c.2) <$> run_calls (trace pb) = ["Publishing"]).
Proof.
  cbv zeta. unfold download_upack, publish_upack. split; [|split].
  - intros call. apply invoke_artifacttool_label.
  - intros call. apply invoke_artifacttool_label.
  - intros tool password Htool Hcred.
    destruct (invoke_artifacttool_calls rt w team
                (download_args team feed name version path) "Downloading" fs tool password
                Htool Hcred) as [_ ->].
    destruct (invoke_artifacttool_calls rt w team
                (publish_args team feed name version description path) "Publishing" fs tool
                password Htool Hcred) as [_ ->].
    split; reflexivity.
Qed.

Lemma initial_progress_labels_witness :
  let w := Samples.world ∅ "s3cr3t" in
  let fs : gset string := {[Samples.cached_binary]} in
  (fun c => c.2) <$>
    run_calls (trace (download_upack Samples.runtime w "https://dev.example" "feed" "pkg" "1.0"
                        "out" fs)) = ["Downloading"] /\
  (fun c => c.2) <$>
    run_calls (trace (publish_upack Samples.runtime w "https://dev.example" "feed" "pkg" "1.0"
                        (Some "notes") "out" fs)) = ["Publishing"].
Proof.
  apply (proj2 (proj2 (initial_progress_labels Samples.runtime (Samples.world ∅ "s3cr3t")
                         "https://dev.example" "feed" "pkg" "1.0" (Some "notes") "out"
                         {[Samples.cached_binary]}))
           Samples.cached_binary "s3cr3t").
  - vm_compute. reflexivity.
  - reflexivity.
Defined.


(** ** Further properties of the log line handler *)

Section ProcessStderrMore.
Context (rt : PyRuntime).

(** Lines 126-145 on an object without an event descriptor. *)
Lemma report_progress_no_event kvs fs :
  dict_get "EventId" kvs = None ->
  report_progress rt (PyDict kvs) fs = (inr tt, fs, []).
Proof.
  intros He. unfold report_progress. destruct kvs as [|kv kvs]; [reflexivity|].
  cbn [truthy]. run_monad. by rewrite He.
Qed.

(** One block of lines 129-145 when the name is not the block's. *)
Lemma progress_block_other json_line event_name other done_key total_key label unit_name fs :
  eq_str event_name other = false ->
  progress_block rt json_line event_name other done_key total_key label unit_name fs =
  (inr tt, fs, []).
Proof. intros H. unfold progress_block. by rewrite H. Qed.

(** For a recognised event the three blocks come down to its own. *)
Lemma report_progress_block kvs ev name done_key total_key fs :
  dict_get "EventId" kvs = Some (PyDict ev) ->
  dict_get "Name" ev = Some (PyStr name) ->
  In (name, done_key, total_key) recognised_events ->
  exists label unit_name,
    report_progress rt (PyDict kvs) fs =
    progress_block rt (PyDict kvs) (PyStr name) name done_key total_key label unit_name fs.
Proof.
  intros He Hn Hin.
  rewrite (report_progress_dict rt kvs ev (PyStr name) fs He Hn).
  destruct Hin as [[= <- <- <-]|[[= <- <- <-]|[[= <- <- <-]|[]]]].
  - exists "Pre-upload processing", "files".
    destruct (progress_block rt (PyDict kvs) (PyStr "ProcessingFiles") "ProcessingFiles"
                "ProcessedFiles" "TotalFiles" "Pre-upload processing" "files" fs)
      as [[[e|[]] fs1] t] eqn:Hhit.
    + by apply run_bind_raise.
    + eapply run_bind_ok; [exact Hhit| |by rewrite app_nil_r].
      eapply run_bind_ok; [by apply progress_block_miss|by apply progress_block_miss|done].
  - exists "Uploading", "bytes".
    destruct (progress_block rt (PyDict kvs) (PyStr "Uploading") "Uploading"
                "UploadedBytes" "TotalBytes" "Uploading" "bytes" fs)
      as [[[e|[]] fs1] t] eqn:Hhit.
    + eapply run_bind_ok; [by apply progress_block_miss| |reflexivity].
      by apply run_bind_raise.
    + eapply run_bind_ok; [by apply progress_block_miss| |reflexivity].
      eapply run_bind_ok; [exact Hhit|by apply progress_block_miss|by rewrite app_nil_r].
  - exists "Downloading", "bytes".
    destruct (progress_block rt (PyDict kvs) (PyStr "Downloading") "Downloading"
                "DownloadedBytes" "TotalBytes" "Downloading" "bytes" fs)
      as [[r fs1] t] eqn:Hhit.
    eapply run_bind_ok; [by apply progress_block_miss| |reflexivity].
    eapply run_bind_ok; [by apply progress_block_miss|exact Hhit|reflexivity].
Qed.

(** The handler on an object whose message part is quiet: its one logger
    call, then whatever the event part does. *)
Lemma process_stderr_quiet line kvs fs :
  json_loads rt line = Some (PyDict kvs) ->
  no_error_message kvs ->
  exists lvl msg,
    log_message rt line (PyDict kvs) fs = (inr tt, fs, [Log lvl msg]) /\
    forall r fs1 t,
      report_progress rt (PyDict kvs) fs = (r, fs1, t) ->
      _process_stderr rt line fs = (r, fs1, Log lvl msg :: t).
Proof.
  intros Hp Hq. destruct (log_message_quiet rt line kvs fs Hq) as (lvl & msg & Hlog).
  exists lvl, msg. split; [done|]. intros r fs1 t Hrep.
  rewrite (process_stderr_parsed rt line _ fs Hp).
  by eapply run_bind_ok; [exact Hlog|exact Hrep|].
Qed.

End ProcessStderrMore.

(** X1.  A line that parses to an object with a message whose level is
    neither Critical nor Error, and with no event descriptor, is logged
    once and nothing else happens: at warning level for "Warning", at info
    level for "Information" and when ['@l'] is absent, at debug level for
    any other level. *)
Theorem message_logged_by_level rt line kvs message lvl fs :
  json_loads rt line = Some (PyDict kvs) ->
  dict_get "@m" kvs = Some message ->
  dict_get "EventId" kvs = None ->
  (dict_get "@l" kvs = Some (PyStr "Warning") /\ lvl = Warning) \/
  ((dict_get "@l" kvs = None \/ dict_get "@l" kvs = Some (PyStr "Information")) /\ lvl = Info) \/
  ((exists l, dict_get "@l" kvs = Some l /\
      l <> PyStr "Critical" /\ l <> PyStr "Error" /\
      l <> PyStr "Warning" /\ l <> PyStr "Information") /\ lvl = Debug) ->
  _process_stderr rt line fs = (inr tt, fs, [Log lvl message]).
Proof.
  intros Hp Hm He Hl. rewrite (process_stderr_parsed rt line _ fs Hp).
  assert (Hlog : log_message rt line (PyDict kvs) fs = (inr tt, fs, [Log lvl message])).
  { rewrite log_message_dict, Hm.
    destruct Hl as [[-> ->]|[[[-> | ->] ->]|[(l & -> & Hc & Her & Hw & Hi) ->]]];
      try reflexivity.
    cbn [default from_option id]. unfold level_of. by rewrite !eq_str_false. }
  eapply run_bind_ok; [exact Hlog|by apply report_progress_no_event|reflexivity].
Qed.

Lemma message_logged_by_level_witness :
  _process_stderr MoreSamples.runtime MoreSamples.info_line ∅
    = (inr tt, ∅, [Log Info (PyStr "started")]) /\
  _process_stderr MoreSamples.runtime MoreSamples.verbose_line ∅
    = (inr tt, ∅, [Log Debug (PyStr "detail")]).
Proof.
  split.
  - apply (message_logged_by_level MoreSamples.runtime MoreSamples.info_line
             [("@m", PyStr "started")] (PyStr "started") Info ∅); try reflexivity.
    right. left. split; [left|]; reflexivity.
  - apply (message_logged_by_level MoreSamples.runtime MoreSamples.verbose_line
             [("@l", PyStr "Verbose"); ("@m", PyStr "detail")] (PyStr "detail") Debug ∅);
      try reflexivity.
    right. right. split; [|reflexivity]. exists (PyStr "Verbose"). by repeat split.
Defined.

(** X2.  A line that parses to an object with neither a message ['@m']
    nor an event descriptor goes to the debug log as the raw line; the
    callback is not called and nothing is raised. *)
Theorem plain_object_is_debug_text rt line kvs fs :
  json_loads rt line = Some (PyDict kvs) ->
  dict_get "@m" kvs = None ->
  dict_get "EventId" kvs = None ->
  _process_stderr rt line fs = (inr tt, fs, [Log Debug (PyStr line)]).
Proof.
  intros Hp Hm He. rewrite (process_stderr_parsed rt line _ fs Hp).
  eapply run_bind_ok; [|by apply report_progress_no_event|by rewrite app_nil_r].
  by rewrite log_message_dict, Hm.
Qed.

Lemma plain_object_is_debug_text_witness :
  _process_stderr MoreSamples.runtime MoreSamples.other_line ∅
    = (inr tt, ∅, [Log Debug (PyStr MoreSamples.other_line)]).
Proof.
  apply (plain_object_is_debug_text MoreSamples.runtime MoreSamples.other_line
           [("Elapsed", PyInt 12)] ∅); reflexivity.
Defined.

(** X3.  An event whose name is none of ProcessingFiles, Uploading and
    Downloading (a string or any other value) never reaches the progress
    callback, whatever count fields the object has or lacks: without an
    error message the handler logs once and returns. *)
Theorem unknown_event_no_progress rt line kvs ev event_name fs :
  json_loads rt line = Some (PyDict kvs) ->
  no_error_message kvs ->
  dict_get "EventId" kvs = Some (PyDict ev) ->
  dict_get "Name" ev = Some event_name ->
  event_name <> PyStr "ProcessingFiles" ->
  event_name <> PyStr "Uploading" ->
  event_name <> PyStr "Downloading" ->
  let r := _process_stderr rt line fs in
  outcome r = inr tt /\ progress_calls (trace r) = [] /\ length (trace r) = 1.
Proof.
  intros Hp Hq He Hn H1 H2 H3.
  destruct (process_stderr_quiet rt line kvs fs Hp Hq) as (lvl & msg & _ & Hrun).
  cbv zeta. rewrite (Hrun (inr tt) fs []); [by repeat split|].
  rewrite (report_progress_dict rt kvs ev event_name fs He Hn).
  eapply run_bind_ok; [apply progress_block_other; by apply eq_str_false| |reflexivity].
  eapply run_bind_ok; [apply progress_block_other; by apply eq_str_false| |reflexivity].
  apply progress_block_other. by apply eq_str_false.
Qed.

Lemma unknown_event_no_progress_witness :
  let r := _process_stderr MoreSamples.runtime MoreSamples.hashing_line ∅ in
  outcome r = inr tt /\ progress_calls (trace r) = [] /\ length (trace r) = 1.
Proof.
  apply (unknown_event_no_progress MoreSamples.runtime MoreSamples.hashing_line
           [("EventId", PyDict [("Name", PyStr "Hashing")])] [("Name", PyStr "Hashing")]
           (PyStr "Hashing") ∅); try reflexivity; try discriminate.
  left. reflexivity.
Defined.

Section ProgressBlockFailures.
Context (rt : PyRuntime).

(** The block of a recognised event, by what the counts are: a missing
    key, a count [float] rejects, a zero total. *)
Lemma progress_block_no_done kvs name done_key total_key label unit_name fs :
  dict_get done_key kvs = None ->
  progress_block rt (PyDict kvs) (PyStr name) name done_key total_key label unit_name fs =
  (inl (KeyError done_key), fs, []).
Proof.
  intros Hd. unfold progress_block, eq_str. rewrite String.eqb_refl. run_monad. by rewrite Hd.
Qed.

Lemma progress_block_no_total kvs name done_key total_key label unit_name d fs :
  dict_get done_key kvs = Some d ->
  dict_get total_key kvs = None ->
  progress_block rt (PyDict kvs) (PyStr name) name done_key total_key label unit_name fs =
  (inl (KeyError total_key), fs, []).
Proof.
  intros Hd Ht. unfold progress_block, eq_str. rewrite String.eqb_refl. run_monad.
  by rewrite Hd, Ht.
Qed.

Lemma progress_block_bad_done kvs name done_key total_key label unit_name d t e fs :
  dict_get done_key kvs = Some d ->
  dict_get total_key kvs = Some t ->
  py_float rt d = inl e ->
  progress_block rt (PyDict kvs) (PyStr name) name done_key total_key label unit_name fs =
  (inl e, fs, []).
Proof.
  intros Hd Ht Hdf. unfold progress_block, eq_str. rewrite String.eqb_refl. run_monad.
  by rewrite Hd, Ht, Hdf.
Qed.

Lemma progress_block_bad_total kvs name done_key total_key label unit_name d t df e fs :
  dict_get done_key kvs = Some d ->
  dict_get total_key kvs = Some t ->
  py_float rt d = inr df ->
  py_float rt t = inl e ->
  progress_block rt (PyDict kvs) (PyStr name) name done_key total_key label unit_name fs =
  (inl e, fs, []).
Proof.
  intros Hd Ht Hdf Htf. unfold progress_block, eq_str. rewrite String.eqb_refl. run_monad.
  by rewrite Hd, Ht, Hdf, Htf.
Qed.

Lemma progress_block_zero_total kvs name done_key total_key label unit_name d t df s fs :
  dict_get done_key kvs = Some d ->
  dict_get total_key kvs = Some t ->
  py_float rt d = inr df ->
  py_float rt t = inr (S754_zero s) ->
  progress_block rt (PyDict kvs) (PyStr name) name done_key total_key label unit_name fs =
  (inl ZeroDivisionError, fs, []).
Proof.
  intros Hd Ht Hdf Htf. unfold progress_block, eq_str. rewrite String.eqb_refl. run_monad.
  by rewrite Hd, Ht, Hdf, Htf.
Qed.

(** The handler on a line with a quiet message and a recognised event
    whose block raises [e] before the callback. *)
Lemma process_stderr_block_raises line kvs ev name done_key total_key e fs :
  json_loads rt line = Some (PyDict kvs) ->
  no_error_message kvs ->
  dict_get "EventId" kvs = Some (PyDict ev) ->
  dict_get "Name" ev = Some (PyStr name) ->
  In (name, done_key, total_key) recognised_events ->
  (forall label unit_name,
     progress_block rt (PyDict kvs) (PyStr name) name done_key total_key label unit_name fs =
     (inl e, fs, [])) ->
  let r := _process_stderr rt line fs in
  outcome r = inl e /\ disk r = fs /\ progress_calls (trace r) = [] /\ length (trace r) = 1.
Proof.
  intros Hp Hq He Hn Hin Hblock.
  destruct (process_stderr_quiet rt line kvs fs Hp Hq) as (lvl & msg & _ & Hrun).
  destruct (report_progress_block rt kvs ev name done_key total_key fs He Hn Hin)
    as (label & unit_name & Hrep).
  rewrite Hblock in Hrep. cbv zeta. by rewrite (Hrun _ _ _ Hrep).
Qed.

End ProgressBlockFailures.

(** X4.  A recognised event whose total converts to a float zero makes
    the handler raise [ZeroDivisionError]: the division of lines 132, 138
    and 144 is not guarded, and the callback is not called. *)
Theorem zero_total_raises rt line kvs ev name done_key total_key d t df s fs :
  json_loads rt line = Some (PyDict kvs) ->
  no_error_message kvs ->
  dict_get "EventId" kvs = Some (PyDict ev) ->
  dict_get "Name" ev = Some (PyStr name) ->
  In (name, done_key, total_key) recognised_events ->
  dict_get done_key kvs = Some d ->
  dict_get total_key kvs = Some t ->
  py_float rt d = inr df ->
  py_float rt t = inr (S754_zero s) ->
  let r := _process_stderr rt line fs in
  outcome r = inl ZeroDivisionError /\ progress_calls (trace r) = [].
Proof.
  intros Hp Hq He Hn Hin Hd Ht Hdf Htf.
  destruct (process_stderr_block_raises rt line kvs ev name done_key total_key
              ZeroDivisionError fs Hp Hq He Hn Hin) as (Ho & _ & Hc & _); [|done].
  intros label unit_name. by eapply progress_block_zero_total.
Qed.

Lemma zero_total_raises_witness :
  let r := _process_stderr MoreSamples.runtime MoreSamples.empty_upload_line ∅ in
  outcome r = inl ZeroDivisionError /\ progress_calls (trace r) = [].
Proof.
  apply (zero_total_raises MoreSamples.runtime MoreSamples.empty_upload_line
           [("EventId", PyDict [("Name", PyStr "Uploading")]);
            ("UploadedBytes", PyInt 0); ("TotalBytes", PyInt 0)]
           [("Name", PyStr "Uploading")] "Uploading" "UploadedBytes" "TotalBytes"
           (PyInt 0) (PyInt 0) (S754_zero false) false ∅); try reflexivity.
  - left. reflexivity.
  - right. left. reflexivity.
Defined.

(** X5.  A recognised event that lacks one of its two count fields makes
    the handler raise [KeyError] for the first missing key, the count done
    before the total; the callback is not called. *)
Theorem missing_count_raises rt line kvs ev name done_key total_key fs :
  json_loads rt line = Some (PyDict kvs) ->
  no_error_message kvs ->
  dict_get "EventId" kvs = Some (PyDict ev) ->
  dict_get "Name" ev = Some (PyStr name) ->
  In (name, done_key, total_key) recognised_events ->
  dict_get done_key kvs = None \/ dict_get total_key kvs = None ->
  let r := _process_stderr rt line fs in
  outcome r = inl (KeyError (match dict_get done_key kvs with
                             | Some _ => total_key
                             | None => done_key
                             end)) /\
  progress_calls (trace r) = [].
Proof.
  intros Hp Hq He Hn Hin Hmiss.
  destruct (dict_get done_key kvs) as [d|] eqn:Hd.
  - destruct Hmiss as [[=]|Ht].
    destruct (process_stderr_block_raises rt line kvs ev name done_key total_key
                (KeyError total_key) fs Hp Hq He Hn Hin) as (Ho & _ & Hc & _); [|done].
    intros label unit_name. by eapply progress_block_no_total.
  - destruct (process_stderr_block_raises rt line kvs ev name done_key total_key
                (KeyError done_key) fs Hp Hq He Hn Hin) as (Ho & _ & Hc & _); [|done].
    intros label unit_name. by apply progress_block_no_done.
Qed.

Lemma missing_count_raises_witness :
  let r := _process_stderr MoreSamples.runtime MoreSamples.no_count_line ∅ in
  outcome r = inl (KeyError "ProcessedFiles") /\ progress_calls (trace r) = [].
Proof.
  apply (missing_count_raises MoreSamples.runtime MoreSamples.no_count_line
           [("EventId", PyDict [("Name", PyStr "ProcessingFiles")]); ("TotalFiles", PyInt 3)]
           [("Name", PyStr "ProcessingFiles")] "ProcessingFiles" "ProcessedFiles" "TotalFiles" ∅);
    try reflexivity.
  - left. reflexivity.
  - left. reflexivity.
  - left. reflexivity.
Defined.

(** X6.  A recognised event with a count that [float] rejects makes the
    handler raise what [float] raises, the count done first: an integer
    too large for a float gives [OverflowError], [null] or a container
    gives [TypeError].  The callback is not called. *)
Theorem bad_count_raises rt line kvs ev name done_key total_key d t e fs :
  json_loads rt line = Some (PyDict kvs) ->
  no_error_message kvs ->
  dict_get "EventId" kvs = Some (PyDict ev) ->
  dict_get "Name" ev = Some (PyStr name) ->
  In (name, done_key, total_key) recognised_events ->
  dict_get done_key kvs = Some d ->
  dict_get total_key kvs = Some t ->
  py_float rt d = inl e \/ ((exists df, py_float rt d = inr df) /\ py_float rt t = inl e) ->
  let r := _process_stderr rt line fs in
  (outcome r = inl e /\ progress_calls (trace r) = []) /\
  (forall z sgn, d = PyInt z -> float_of_Z z = S754_infinity sgn -> e = OverflowError) /\
  (d = PyNone -> e = TypeError).
Proof.
  intros Hp Hq He Hn Hin Hd Ht Hbad. cbv zeta. split; [|split].
  - destruct (process_stderr_block_raises rt line kvs ev name done_key total_key
                e fs Hp Hq He Hn Hin) as (Ho & _ & Hc & _); [|done].
    intros label unit_name. destruct Hbad as [Hdf|[[df Hdf] Htf]].
    + by eapply progress_block_bad_done.
    + by eapply progress_block_bad_total.
  - intros z sgn -> Hinf. cbn in Hbad. rewrite Hinf in Hbad.
    destruct Hbad as [[= <-]|[[df [=]] _]]. reflexivity.
  - intros ->. cbn in Hbad. destruct Hbad as [[= <-]|[[df [=]] _]]. reflexivity.
Qed.

Lemma bad_count_raises_witness :
  let r := _process_stderr MoreSamples.runtime MoreSamples.huge_download_line ∅ in
  outcome r = inl OverflowError /\ progress_calls (trace r) = [].
Proof.
  apply (bad_count_raises MoreSamples.runtime MoreSamples.huge_download_line
           [("EventId", PyDict [("Name", PyStr "Downloading")]);
            ("DownloadedBytes", PyInt (2 ^ 1024)); ("TotalBytes", PyInt 200)]
           [("Name", PyStr "Downloading")] "Downloading" "DownloadedBytes" "TotalBytes"
           (PyInt (2 ^ 1024)) (PyInt 200) OverflowError ∅).
  - vm_compute. reflexivity.
  - left. reflexivity.
  - reflexivity.
  - reflexivity.
  - right. right. left. reflexivity.
  - reflexivity.
  - reflexivity.
  - left. vm_compute. reflexivity.
Defined.

(** X7.  An object whose ['EventId'] is [null], a boolean or a number
    makes the handler raise [TypeError] at the membership test for
    ['Name'] (line 126), after the logger call of the message part; the
    callback is not called. *)
Theorem scalar_event_id_raises rt line kvs v fs :
  json_loads rt line = Some (PyDict kvs) ->
  no_error_message kvs ->
  dict_get "EventId" kvs = Some v ->
  v = PyNone \/ (exists b, v = PyBool b) \/ (exists z, v = PyInt z) \/ (exists f, v = PyFloat f) ->
  let r := _process_stderr rt line fs in
  outcome r = inl TypeError /\ progress_calls (trace r) = [] /\ length (trace r) = 1.
Proof.
  intros Hp Hq He Hv.
  destruct (process_stderr_quiet rt line kvs fs Hp Hq) as (lvl & msg & _ & Hrun).
  cbv zeta. rewrite (Hrun (inl TypeError) fs []); [by repeat split|].
  unfold report_progress. assert (Ht : truthy (PyDict kvs) = true) by (by destruct kvs).
  rewrite Ht. run_monad. rewrite He.
  by destruct Hv as [->|[[b ->]|[[z ->]|[f ->]]]].
Qed.

Lemma scalar_event_id_raises_witness :
  let r := _process_stderr MoreSamples.runtime MoreSamples.null_event_line ∅ in
  outcome r = inl TypeError /\ progress_calls (trace r) = [] /\ length (trace r) = 1.
Proof.
  apply (scalar_event_id_raises MoreSamples.runtime MoreSamples.null_event_line
           [("EventId", PyNone)] PyNone ∅); try reflexivity.
  - left. reflexivity.
  - left. reflexivity.
Defined.

(** X8.  An object whose event descriptor is an object without ['Name']
    is no event for the handler: after the logger call of the message part
    it returns, whatever count fields the line carries. *)
Theorem unnamed_event_ignored rt line kvs ev fs :
  json_loads rt line = Some (PyDict kvs) ->
  no_error_message kvs ->
  dict_get "EventId" kvs = Some (PyDict ev) ->
  dict_get "Name" ev = None ->
  let r := _process_stderr rt line fs in
  outcome r = inr tt /\ progress_calls (trace r) = [] /\ length (trace r) = 1.
Proof.
  intros Hp Hq He Hn.
  destruct (process_stderr_quiet rt line kvs fs Hp Hq) as (lvl & msg & _ & Hrun).
  cbv zeta. rewrite (Hrun (inr tt) fs []); [by repeat split|].
  unfold report_progress. assert (Ht : truthy (PyDict kvs) = true) by (by destruct kvs).
  rewrite Ht. run_monad. rewrite He. cbn beta iota. by rewrite Hn.
Qed.

Lemma unnamed_event_ignored_witness :
  let r := _process_stderr MoreSamples.runtime MoreSamples.unnamed_event_line ∅ in
  outcome r = inr tt /\ progress_calls (trace r) = [] /\ length (trace r) = 1.
Proof.
  apply (unnamed_event_ignored MoreSamples.runtime MoreSamples.unnamed_event_line
           [("EventId", PyDict [])] [] ∅); try reflexivity.
  left. reflexivity.
Defined.

(** X9.  A line that parses to a JSON string or array is handled by the
    membership tests alone: when it contains ['@m'] (as a substring, as an
    element) the handler raises [TypeError] at the subscript, before any
    logging; otherwise the line goes to the debug log, and the handler then
    raises [TypeError] when the value contains ['EventId'] and returns
    when it does not.  The callback is never called. *)
Theorem text_or_array_line rt line v has_m has_event fs :
  json_loads rt line = Some v ->
  (exists s, v = PyStr s) \/ (exists items, v = PyList items) ->
  py_in "@m" v = inr has_m ->
  py_in "EventId" v = inr has_event ->
  _process_stderr rt line fs =
  if has_m then (inl TypeError, fs, [])
  else if has_event then (inl TypeError, fs, [Log Debug (PyStr line)])
  else (inr tt, fs, [Log Debug (PyStr line)]).
Proof.
  intros Hp Hv Hm He. rewrite (process_stderr_parsed rt line v fs Hp).
  destruct Hv as [[s ->]|[items ->]].
  - cbn in Hm, He. injection Hm as <-. injection He as <-.
    unfold log_message, report_progress. run_monad.
    destruct (Str.contains "@m" s).
    + by destruct (Str.contains "@l" s).
    + destruct (Str.contains "EventId" s) eqn:Hev.
      * assert (Hne : truthy (PyStr s) = true) by (by destruct s).
        by rewrite Hne.
      * by destruct (truthy (PyStr s)).
  - cbn in Hm, He. injection Hm as <-. injection He as <-.
    unfold log_message, report_progress. run_monad.
    destruct (existsb (fun x => eq_str x "@m") items).
    + by destruct (existsb (fun x => eq_str x "@l") items).
    + destruct (existsb (fun x => eq_str x "EventId") items) eqn:Hev.
      * assert (Hne : truthy (PyList items) = true) by (by destruct items).
        by rewrite Hne.
      * by destruct (truthy (PyList items)).
Qed.

Lemma text_or_array_line_witness :
  _process_stderr MoreSamples.runtime MoreSamples.array_line ∅
    = (inr tt, ∅, [Log Debug (PyStr MoreSamples.array_line)]).
Proof.
  apply (text_or_array_line MoreSamples.runtime MoreSamples.array_line (PyList [PyInt 1])
           false false ∅); try reflexivity.
  right. by exists [PyInt 1].
Defined.

(** ** Further properties of the updater *)

Section UpdaterMore.
Context (rt : PyRuntime) (w : World).

(** The updater without a path override is a debug log, the update check
    and a second debug log. *)
Lemma get_latest_no_override team fs :
  environ w !! ARTIFACTTOOL_OVERRIDE_PATH_ENVKEY = None ->
  get_latest_artifacttool rt w team fs =
  match _update_artifacttool rt w team fs with
  | (inl e, fs1, t) => (inl e, fs1, Log Debug (PyStr "Checking for a new ArtifactTool") :: t)
  | (inr p, fs1, t) =>
      (inr p, fs1,
       Log Debug (PyStr "Checking for a new ArtifactTool") ::
       t ++ [Log Debug (PyStr ("Using downloaded ArtifactTool from '" +:+ p +:+ "'"))])
  end.
Proof.
  intros H. unfold get_latest_artifacttool. rewrite H. run_monad.
  by destruct (_update_artifacttool rt w team fs) as [[[e|p] fs1] t].
Qed.

Lemma effects_app t1 t2 : effects (t1 ++ t2) = effects t1 ++ effects t2.
Proof. apply List.filter_app. Qed.

(** The update check, by what the server and the disk answer. *)
Lemma update_effects team fs :
  let r := _update_artifacttool rt w team fs in
  let url := binary_url w in
  match http_head w url with
  | None => outcome r = inl RequestException /\ disk r = fs /\ effects (trace r) = [HttpHead url]
  | Some None => outcome r = inl AttributeError /\ disk r = fs /\ effects (trace r) = [HttpHead url]
  | Some (Some header) =>
      let etag := etag_of_header header in
      if bool_decide (binary_path_of rt w etag ∈ fs) then
        outcome r = inr (binary_path_of rt w etag) /\ disk r = fs /\
        effects (trace r) = [HttpHead url]
      else
        match http_get w url with
        | None =>
            outcome r = inl RequestException /\ disk r = fs /\
            effects (trace r) = [HttpHead url; HttpGet url]
        | Some content =>
            match extractall w content (tool_dir_of rt w etag) fs with
            | NotAnArchive =>
                outcome r = inl BadZipFile /\ disk r = fs /\
                effects (trace r) = [HttpHead url; HttpGet url]
            | Extracted fs' =>
                outcome r = inr (binary_path_of rt w etag) /\ disk r = fs' /\
                effects (trace r) = [HttpHead url; HttpGet url; ExtractAll (tool_dir_of rt w etag)]
            | ExtractionFailed ex fs' =>
                outcome r = inl ex /\ disk r = fs' /\
                effects (trace r) = [HttpHead url; HttpGet url; ExtractAll (tool_dir_of rt w etag)]
            end
        end
  end.
Proof.
  cbv zeta. unfold _update_artifacttool, requests_head, requests_get, zip_extractall. run_monad.
  destruct (http_head w (binary_url w)) as [[header|]|];
    destruct (environ w !! ARTIFACTTOOL_OVERRIDE_URL_ENVKEY); cbn beta iota;
    try (repeat split; reflexivity).
  all: destruct (bool_decide (binary_path_of rt w (etag_of_header header) ∈ fs));
    try (repeat split; reflexivity).
  all: destruct (http_get w (binary_url w)) as [content|]; try (repeat split; reflexivity).
  all: destruct (extractall w content (tool_dir_of rt w (etag_of_header header)) fs);
    repeat split; reflexivity.
Qed.

End UpdaterMore.

Section UpdaterRuns.
Context (rt : PyRuntime) (w : World).

(** Without a path override the updater has the outcome, the disk and
    the effects of the update check. *)
Lemma get_latest_as_update team fs :
  environ w !! ARTIFACTTOOL_OVERRIDE_PATH_ENVKEY = None ->
  let r := get_latest_artifacttool rt w team fs in
  let u := _update_artifacttool rt w team fs in
  outcome r = outcome u /\ disk r = disk u /\ effects (trace r) = effects (trace u).
Proof.
  intros H. cbv zeta. rewrite (get_latest_no_override rt w team fs H).
  destruct (_update_artifacttool rt w team fs) as [[[e|p] fs1] t]; repeat split.
  unfold trace. cbn [snd]. change (effects (?x :: ?l)) with (effects ([x] ++ l)).
  by rewrite !effects_app, app_nil_r.
Qed.

End UpdaterRuns.

(** X10.  With no path override, an ETag in the answer to HEAD, no binary
    at the path computed from it, a GET that succeeds and an archive that
    extracts, the updater requests HEAD then GET on the same URL, extracts
    into the directory of the tag and returns the computed binary path,
    without looking whether the extraction put a file there. *)
Theorem fresh_download rt w team header content fs fs' :
  environ w !! ARTIFACTTOOL_OVERRIDE_PATH_ENVKEY = None ->
  http_head w (binary_url w) = Some (Some header) ->
  binary_path_of rt w (etag_of_header header) ∉ fs ->
  http_get w (binary_url w) = Some content ->
  extractall w content (tool_dir_of rt w (etag_of_header header)) fs = Extracted fs' ->
  let r := get_latest_artifacttool rt w team fs in
  outcome r = inr (binary_path_of rt w (etag_of_header header)) /\
  disk r = fs' /\
  effects (trace r) =
    [HttpHead (binary_url w); HttpGet (binary_url w);
     ExtractAll (tool_dir_of rt w (etag_of_header header))].
Proof.
  intros Hno Hhead Hnin Hget Hzip. cbv zeta.
  destruct (get_latest_as_update rt w team fs Hno) as (-> & -> & ->).
  pose proof (update_effects rt w team fs) as H. cbv zeta in H.
  by rewrite Hhead, (bool_decide_eq_false_2 _ Hnin), Hget, Hzip in H.
Qed.

Lemma fresh_download_witness :
  let w := MoreSamples.world in
  let r := get_latest_artifacttool Samples.runtime w "https://dev.example" ∅ in
  let etag := etag_of_header Samples.etag_header in
  (outcome r = inr (binary_path_of Samples.runtime w etag) /\
   disk r = {[Samples.cached_binary]} ∪ ∅ /\
   effects (trace r) =
     [HttpHead (binary_url w); HttpGet (binary_url w);
      ExtractAll (tool_dir_of Samples.runtime w etag)]) /\
  binary_path_of Samples.runtime w etag = Samples.cached_binary.
Proof.
  cbv zeta. split; [|vm_compute; reflexivity].
  apply (fresh_download Samples.runtime MoreSamples.world "https://dev.example"
           Samples.etag_header "PK" ∅ ({[Samples.cached_binary]} ∪ ∅)).
  - vm_compute. reflexivity.
  - reflexivity.
  - apply not_elem_of_empty.
  - reflexivity.
  - reflexivity.
Defined.



(** X12.  The updater talks to one URL only, the override URL when set
    and the default one otherwise, and in one order: no request at all, or
    one HEAD, or one HEAD followed by one GET. *)
Theorem updater_requests rt w team fs :
  let reqs := network_requests (trace (get_latest_artifacttool rt w team fs)) in
  let url := default DEFAULT_ARTIFACTTOOL_BINARY_URL
               (environ w !! ARTIFACTTOOL_OVERRIDE_URL_ENVKEY) in
  reqs = [] \/ reqs = [HttpHead url] \/ reqs = [HttpHead url; HttpGet url].
Proof.
  cbv zeta.
  assert (Hurl : default DEFAULT_ARTIFACTTOOL_BINARY_URL
                   (environ w !! ARTIFACTTOOL_OVERRIDE_URL_ENVKEY) = binary_url w).
  { unfold binary_url. by destruct (environ w !! ARTIFACTTOOL_OVERRIDE_URL_ENVKEY). }
  rewrite Hurl, network_requests_effects.
  destruct (environ w !! ARTIFACTTOOL_OVERRIDE_PATH_ENVKEY) as [p|] eqn:Hov.
  - rewrite (get_latest_override rt w team p fs Hov). by left.
  - destruct (get_latest_as_update rt w team fs Hov) as (_ & _ & ->).
    pose proof (update_effects rt w team fs) as H. cbv zeta in H.
    destruct (http_head w (binary_url w)) as [[header|]|].
    + destruct (bool_decide _).
      * destruct H as (_ & _ & ->). right. by left.
      * destruct (http_get w (binary_url w)) as [content|].
        -- destruct (extractall w content _ fs); destruct H as (_ & _ & ->); right; by right.
        -- destruct H as (_ & _ & ->). right. by right.
    + destruct H as (_ & _ & ->). right. by left.
    + destruct H as (_ & _ & ->). right. by left.
Qed.

(** X13.  With no path override, an answer to HEAD that carries no ETag
    header makes the updater raise [AttributeError] after that one
    request, and a HEAD that fails makes it raise the request's failure:
    in both cases no GET follows. *)
Theorem head_without_etag rt w team fs :
  environ w !! ARTIFACTTOOL_OVERRIDE_PATH_ENVKEY = None ->
  let r := get_latest_artifacttool rt w team fs in
  (http_head w (binary_url w) = Some None ->
   outcome r = inl AttributeError /\ effects (trace r) = [HttpHead (binary_url w)]) /\
  (http_head w (binary_url w) = None ->
   outcome r = inl RequestException /\ effects (trace r) = [HttpHead (binary_url w)]).
Proof.
  intros Hov. cbv zeta.
  destruct (get_latest_as_update rt w team fs Hov) as (-> & _ & ->).
  pose proof (update_effects rt w team fs) as H. cbv zeta in H.
  split; intros Hhead; rewrite Hhead in H; by destruct H as (? & _ & ?).
Qed.

Lemma head_without_etag_witness :
  let r := get_latest_artifacttool Samples.runtime MoreSamples.no_etag_world
             "https://dev.example" ∅ in
  outcome r = inl AttributeError /\
  effects (trace r) = [HttpHead (binary_url MoreSamples.no_etag_world)].
Proof.
  apply (proj1 (head_without_etag Samples.runtime MoreSamples.no_etag_world
                  "https://dev.example" ∅ ltac:(vm_compute; reflexivity))).
  reflexivity.
Defined.

(** X14.  A download that leaves the binary at the returned path is not
    repeated: the next run of the updater on the resulting disk, against
    the same server, returns the same path after its HEAD request alone
    and leaves the disk as it is. *)
Theorem second_run_reuses_download rt w team fs p :
  environ w !! ARTIFACTTOOL_OVERRIDE_PATH_ENVKEY = None ->
  let first := get_latest_artifacttool rt w team fs in
  outcome first = inr p ->
  p ∈ disk first ->
  let second := get_latest_artifacttool rt w team (disk first) in
  outcome second = inr p /\
  disk second = disk first /\
  effects (trace second) = [HttpHead (binary_url w)].
Proof.
  intros Hov first Hout Hin. subst first. cbv zeta.
  destruct (get_latest_as_update rt w team fs Hov) as (Ho1 & Hd1 & _).
  rewrite Ho1 in Hout. rewrite Hd1 in Hin |- *. clear Ho1 Hd1.
  destruct (get_latest_as_update rt w team (disk (_update_artifacttool rt w team fs)) Hov)
    as (-> & -> & ->).
  pose proof (update_effects rt w team fs) as H1. cbv zeta in H1.
  pose proof (update_effects rt w team (disk (_update_artifacttool rt w team fs))) as H2.
  cbv zeta in H2.
  destruct (http_head w (binary_url w)) as [[header|]|];
    [|destruct H1 as (Ho & _); congruence..].
  assert (Hp : p = binary_path_of rt w (etag_of_header header)).
  { destruct (bool_decide _); [destruct H1 as (Ho & _); congruence|].
    destruct (http_get w (binary_url w)) as [content|];
      [|destruct H1 as (Ho & _); congruence].
    destruct (extractall w content _ fs); destruct H1 as (Ho & _); congruence. }
  subst p. by rewrite (bool_decide_eq_true_2 _ Hin) in H2.
Qed.

Lemma second_run_reuses_download_witness :
  let w := MoreSamples.world in
  let first := get_latest_artifacttool Samples.runtime w "https://dev.example" ∅ in
  let second := get_latest_artifacttool Samples.runtime w "https://dev.example" (disk first) in
  outcome second = inr Samples.cached_binary /\
  disk second = disk first /\
  effects (trace second) = [HttpHead (binary_url w)].
Proof.
  apply (second_run_reuses_download Samples.runtime MoreSamples.world "https://dev.example"
           ∅ Samples.cached_binary).
  - vm_compute. reflexivity.
  - vm_compute. reflexivity.
  - assert (Hd : disk (get_latest_artifacttool Samples.runtime MoreSamples.world
                         "https://dev.example" ∅) = {[Samples.cached_binary]} ∪ ∅)
      by (vm_compute; reflexivity).
    rewrite Hd. apply elem_of_union_l, elem_of_singleton. reflexivity.
Defined.

(** ** Further properties of the invoker and of the commands *)

Section InvokerMore.
Context (rt : PyRuntime) (w : World).

(** A call of the runner made by [invoke_artifacttool] has the tool path
    in front of the arguments and the credential in the environment. *)
Lemma invoke_artifacttool_call team args label fs call :
  In call (run_calls (trace (invoke_artifacttool rt w team args label fs))) ->
  exists tool password,
    outcome (get_latest_artifacttool rt w team fs) = inr tool /\
    credentials_password w team = Some password /\
    call = (tool :: args, <[PATVAR := password]> (environ w), label).
Proof.
  rewrite invoke_artifacttool_run.
  pose proof (get_latest_no_run rt w team fs) as Hno.
  destruct (get_latest_artifacttool rt w team fs) as [[[e|tool] fs1] t];
    change (run_calls t = []) in Hno.
  - cbn [trace snd]. by rewrite Hno.
  - destruct (credentials_password w team) as [password|]; cbn [trace snd].
    + rewrite run_calls_app, Hno. intros [<-|[]]. by exists tool, password.
    + by rewrite Hno.
Qed.

(** [invoke_artifacttool] when the updater raises, and when no credential
    resolves. *)
Lemma invoke_artifacttool_fails team args label fs :
  let r := invoke_artifacttool rt w team args label fs in
  let u := get_latest_artifacttool rt w team fs in
  (forall e, outcome u = inl e -> outcome r = inl e /\ disk r = disk u /\ trace r = trace u) /\
  (forall tool, outcome u = inr tool -> credentials_password w team = None ->
     outcome r = inl CredentialError /\ disk r = disk u /\ trace r = trace u).
Proof.
  cbv zeta. rewrite invoke_artifacttool_run.
  destruct (get_latest_artifacttool rt w team fs) as [[[e|tool] fs1] t]; split.
  - by intros e' [= <-].
  - by intros tool [=].
  - by intros e [=].
  - intros tool' _ ->. done.
Qed.

End InvokerMore.

(** X15.  When no credential resolves for the endpoint, [download_upack]
    and [publish_upack] raise without calling the subprocess runner; the
    updater has run before, so its requests and its download are done. *)
Theorem no_credential_no_run rt w team feed name version description path fs tool :
  outcome (get_latest_artifacttool rt w team fs) = inr tool ->
  credentials_password w team = None ->
  let u := get_latest_artifacttool rt w team fs in
  let dl := download_upack rt w team feed name version path fs in
  let pb := publish_upack rt w team feed name version description path fs in
  (outcome dl = inl CredentialError /\ run_calls (trace dl) = [] /\
   trace dl = trace u /\ disk dl = disk u) /\
  (outcome pb = inl CredentialError /\ run_calls (trace pb) = [] /\
   trace pb = trace u /\ disk pb = disk u).
Proof.
  intros Htool Hcred. cbv zeta. unfold download_upack, publish_upack.
  split.
  - destruct (proj2 (invoke_artifacttool_fails rt w team
        (download_args team feed name version path) "Downloading" fs) tool Htool Hcred)
      as (-> & -> & ->).
    repeat split. apply get_latest_no_run.
  - destruct (proj2 (invoke_artifacttool_fails rt w team
        (publish_args team feed name version description path) "Publishing" fs) tool Htool Hcred)
      as (-> & -> & ->).
    repeat split. apply get_latest_no_run.
Qed.

Lemma no_credential_no_run_witness :
  let w := MoreSamples.no_credential_world in
  let dl := download_upack Samples.runtime w "https://dev.example" "feed" "pkg" "1.0" "out" ∅ in
  outcome dl = inl CredentialError /\ run_calls (trace dl) = [] /\
  effects (trace dl) =
    [HttpHead (binary_url w); HttpGet (binary_url w); ExtractAll "/tmp/ArtifactTool/8d5f3a"].
Proof.
  cbv zeta.
  destruct (no_credential_no_run Samples.runtime MoreSamples.no_credential_world
              "https://dev.example" "feed" "pkg" "1.0" None "out" ∅ Samples.cached_binary)
    as [(Ho & Hr & Ht & _) _].
  - vm_compute. reflexivity.
  - reflexivity.
  - split; [exact Ho|]. split; [exact Hr|]. rewrite Ht. vm_compute. reflexivity.
Defined.

(** X16.  When the updater raises, [download_upack] and [publish_upack]
    raise the same exception and the subprocess runner is not called. *)
Theorem updater_failure_no_run rt w team feed name version description path fs e :
  outcome (get_latest_artifacttool rt w team fs) = inl e ->
  let dl := download_upack rt w team feed name version path fs in
  let pb := publish_upack rt w team feed name version description path fs in
  (outcome dl = inl e /\ run_calls (trace dl) = []) /\
  (outcome pb = inl e /\ run_calls (trace pb) = []).
Proof.
  intros He. cbv zeta. unfold download_upack, publish_upack. split.
  - destruct (proj1 (invoke_artifacttool_fails rt w team
        (download_args team feed name version path) "Downloading" fs) e He) as (-> & _ & ->).
    split; [done|]. apply get_latest_no_run.
  - destruct (proj1 (invoke_artifacttool_fails rt w team
        (publish_args team feed name version description path) "Publishing" fs) e He)
      as (-> & _ & ->).
    split; [done|]. apply get_latest_no_run.
Qed.

Lemma updater_failure_no_run_witness :
  let w := MoreSamples.offline_world in
  let dl := download_upack Samples.runtime w "https://dev.example" "feed" "pkg" "1.0" "out" ∅ in
  let pb := publish_upack Samples.runtime w "https://dev.example" "feed" "pkg" "1.0" None "src" ∅ in
  (outcome dl = inl RequestException /\ run_calls (trace dl) = []) /\
  (outcome pb = inl RequestException /\ run_calls (trace pb) = []).
Proof.
  apply (updater_failure_no_run Samples.runtime MoreSamples.offline_world
           "https://dev.example" "feed" "pkg" "1.0" None "out" ∅ RequestException).
  vm_compute. reflexivity.
Defined.

(** X17.  In every call of the runner made by [download_upack] or
    [publish_upack], the word that follows [--patvar] on the command line
    is the name of the environment variable that holds the credential:
    the tool is told where to find the secret it is given. *)
Theorem patvar_names_the_secret rt w team feed name version description path fs call :
  In call (run_calls (trace (download_upack rt w team feed name version path fs))) \/
  In call (run_calls (trace (publish_upack rt w team feed name version description path fs))) ->
  exists before var after,
    call.1.1 = before ++ "--patvar" :: var :: after /\
    length before = 5 /\
    call.1.2 !! var = credentials_password w team /\
    is_Some (credentials_password w team).
Proof.
  unfold download_upack, publish_upack.
  intros [Hin|Hin]; apply invoke_artifacttool_call in Hin as (tool & password & _ & Hcred & ->).
  - exists [tool; "upack"; "download"; "--service"; team], PATVAR,
      ["--feed"; feed; "--package-name"; name; "--package-version"; version; "--path"; path].
    cbn [fst snd]. rewrite Hcred, lookup_insert_eq. repeat split. by exists password.
  - exists [tool; "upack"; "publish"; "--service"; team], PATVAR,
      (["--feed"; feed; "--package-name"; name; "--package-version"; version; "--path"; path] ++
       match description with
       | Some d => if String.eqb d "" then [] else ["--description"; d]
       | None => []
       end).
    cbn [fst snd]. rewrite Hcred, lookup_insert_eq. repeat split; [|by exists password].
    unfold publish_args. destruct description as [d|]; [|reflexivity].
    by destruct (String.eqb d "").
Qed.

Lemma patvar_names_the_secret_witness :
  let w := Samples.world ∅ "s3cr3t" in
  let fs : gset string := {[Samples.cached_binary]} in
  let call := (Samples.cached_binary ::
                 download_args "https://dev.example" "feed" "pkg" "1.0" "out",
               <[PATVAR := "s3cr3t"]> (∅ : gmap string string), "Downloading") in
  exists before var after,
    call.1.1 = before ++ "--patvar" :: var :: after /\
    length before = 5 /\
    call.1.2 !! var = Some "s3cr3t" /\
    is_Some (Some "s3cr3t").
Proof.
  cbv zeta.
  apply (patvar_names_the_secret Samples.runtime (Samples.world ∅ "s3cr3t")
           "https://dev.example" "feed" "pkg" "1.0" None "out" {[Samples.cached_binary]}).
  left.
  assert (Hrun : run_calls (trace (download_upack Samples.runtime (Samples.world ∅ "s3cr3t")
                   "https://dev.example" "feed" "pkg" "1.0" "out" {[Samples.cached_binary]})) =
                 [(Samples.cached_binary ::
                     download_args "https://dev.example" "feed" "pkg" "1.0" "out",
                   <[PATVAR := "s3cr3t"]> (∅ : gmap string string), "Downloading")])
    by (vm_compute; reflexivity).
  rewrite Hrun. left. reflexivity.
Defined.

(** X18.  [publish_upack] passes a description to the tool only when it
    is a non-empty string: with [None] or the empty string the command
    line ends with the path, with a description [d] it ends with
    [--description d]; [download_upack] always ends with the path. *)
Theorem description_only_when_given rt w team feed name version description path fs call :
  In call (run_calls (trace (publish_upack rt w team feed name version description path fs))) ->
  exists tool,
    outcome (get_latest_artifacttool rt w team fs) = inr tool /\
    call.1.1 =
      [tool; "upack"; "publish"; "--service"; team; "--patvar"; "VSTS_ARTIFACTTOOL_PATVAR";
       "--feed"; feed; "--package-name"; name; "--package-version"; version; "--path"; path] ++
      match description with
      | Some d => if decide (d = "") then [] else ["--description"; d]
      | None => []
      end.
Proof.
  unfold publish_upack. intros Hin.
  apply invoke_artifacttool_call in Hin as (tool & password & Htool & _ & ->).
  exists tool. split; [done|]. cbn [fst snd]. unfold publish_args.
  destruct description as [d|]; [|reflexivity].
  destruct (String.eqb_spec d "") as [Heq|Hne]; destruct (decide (d = "")); done.
Qed.

Lemma description_only_when_given_witness :
  let call := (Samples.cached_binary ::
                 publish_args "https://dev.example" "feed" "pkg" "1.0" (Some "") "src",
               <[PATVAR := "s3cr3t"]> (∅ : gmap string string), "Publishing") in
  exists tool,
    outcome (get_latest_artifacttool Samples.runtime (Samples.world ∅ "s3cr3t")
               "https://dev.example" {[Samples.cached_binary]}) = inr tool /\
    call.1.1 =
      [tool; "upack"; "publish"; "--service"; "https://dev.example"; "--patvar";
       "VSTS_ARTIFACTTOOL_PATVAR"; "--feed"; "feed"; "--package-name"; "pkg";
       "--package-version"; "1.0"; "--path"; "src"] ++
      match Some "" with
      | Some d => if decide (d = "") then [] else ["--description"; d]
      | None => []
      end.
Proof.
  cbv zeta.
  apply (description_only_when_given Samples.runtime (Samples.world ∅ "s3cr3t")
           "https://dev.example" "feed" "pkg" "1.0" (Some "") "src" {[Samples.cached_binary]}).
  assert (Hrun : run_calls (trace (publish_upack Samples.runtime (Samples.world ∅ "s3cr3t")
                   "https://dev.example" "feed" "pkg" "1.0" (Some "") "src"
                   {[Samples.cached_binary]})) =
                 [(Samples.cached_binary ::
                     publish_args "https://dev.example" "feed" "pkg" "1.0" (Some "") "src",
                   <[PATVAR := "s3cr3t"]> (∅ : gmap string string), "Publishing")])
    by (vm_compute; reflexivity).
  rewrite Hrun. left. reflexivity.
Defined.

Section UpackFacts.
Context (rt : PyRuntime) (w : World) (handler : exn -> M unit).

(** [try_except] by the outcome of the body. *)
Lemma try_except_ok {A} (body : M A) (h : exn -> M A) fs a :
  outcome (body fs) = inr a -> try_except body h fs = body fs.
Proof.
  unfold try_except, outcome. by destruct (body fs) as [[[e|a'] fs1] t].
Qed.

Lemma try_except_raise {A} (body : M A) (h : exn -> M A) fs e :
  outcome (body fs) = inl e ->
  try_except body h fs =
  (outcome (h e (disk (body fs))), disk (h e (disk (body fs))),
   trace (body fs) ++ trace (h e (disk (body fs)))).
Proof.
  unfold try_except, outcome, disk, trace.
  destruct (body fs) as [[[e'|a] fs1] t]; [|done]. cbn [fst snd]. intros [= ->].
  by destruct (h e fs1) as [[r fs2] t2].
Qed.

End UpackFacts.

(** X19.  [publish_package(team_instance, feed, name, version, path,
    description)] puts its path after [--path] and its description after
    [--description], although it takes them in the other order than
    [publish_upack]: when the tool and the credential resolve, the runner
    is called once with that command line and, the call being one that
    returns, the command is [publish_upack] and no more. *)
Theorem publish_package_command rt w handler team feed name version path d fs tool password :
  outcome (get_latest_artifacttool rt w team fs) = inr tool ->
  credentials_password w team = Some password ->
  d <> "" ->
  let r := publish_package rt w handler team feed name version path (Some d) fs in
  r = publish_upack rt w team feed name version (Some d) path fs /\
  run_calls (trace r) =
    [([tool; "upack"; "publish"; "--service"; team; "--patvar"; "VSTS_ARTIFACTTOOL_PATVAR";
       "--feed"; feed; "--package-name"; name; "--package-version"; version; "--path"; path;
       "--description"; d],
      <[PATVAR := password]> (environ w), "Publishing")].
Proof.
  intros Htool Hcred Hd. cbv zeta. unfold publish_package.
  destruct (invoke_artifacttool_calls rt w team
              (publish_args team feed name version (Some d) path) "Publishing" fs tool password
              Htool Hcred) as [Hout Hrun].
  rewrite (try_except_ok _ handler fs tt) by exact Hout.
  split; [reflexivity|].
  unfold publish_upack. rewrite Hrun. unfold publish_args.
  by rewrite (proj2 (String.eqb_neq d "") Hd).
Qed.

Lemma publish_package_command_witness :
  let w := Samples.world ∅ "s3cr3t" in
  let fs : gset string := {[Samples.cached_binary]} in
  let r := publish_package Samples.runtime w MoreSamples.logging_handler
             "https://dev.example" "feed" "pkg" "1.0" "src" (Some "notes") fs in
  r = publish_upack Samples.runtime w "https://dev.example" "feed" "pkg" "1.0" (Some "notes")
        "src" fs /\
  run_calls (trace r) =
    [([Samples.cached_binary; "upack"; "publish"; "--service"; "https://dev.example";
       "--patvar"; "VSTS_ARTIFACTTOOL_PATVAR"; "--feed"; "feed"; "--package-name"; "pkg";
       "--package-version"; "1.0"; "--path"; "src"; "--description"; "notes"],
      <[PATVAR := "s3cr3t"]> (environ w), "Publishing")].
Proof.
  apply (publish_package_command Samples.runtime (Samples.world ∅ "s3cr3t")
           MoreSamples.logging_handler "https://dev.example" "feed" "pkg" "1.0" "src" "notes"
           {[Samples.cached_binary]} Samples.cached_binary "s3cr3t").
  - vm_compute. reflexivity.
  - reflexivity.
  - discriminate.
Defined.

(** X20.  Whatever [download_upack] or [publish_upack] raises is handed
    to [handle_command_exception], on the disk the failed call left, and
    the command ends as the handler ends; so with a handler that always
    returns, the two commands never raise. *)
Theorem command_errors_reach_handler rt w handler team feed name version path description fs :
  let dl := download_upack rt w team feed name version path fs in
  let pb := publish_upack rt w team feed name version description path fs in
  let dlp := download_package rt w handler team feed name version path fs in
  let pbp := publish_package rt w handler team feed name version path description fs in
  (forall e, outcome dl = inl e ->
     dlp = (outcome (handler e (disk dl)), disk (handler e (disk dl)),
            trace dl ++ trace (handler e (disk dl)))) /\
  (forall e, outcome pb = inl e ->
     pbp = (outcome (handler e (disk pb)), disk (handler e (disk pb)),
            trace pb ++ trace (handler e (disk pb)))) /\
  ((forall e fs', outcome (handler e fs') = inr tt) ->
   outcome dlp = inr tt /\ outcome pbp = inr tt).
Proof.
  cbv zeta. unfold download_package, publish_package. split; [|split].
  - intros e He. by rewrite (try_except_raise _ handler fs e He).
  - intros e He. by rewrite (try_except_raise _ handler fs e He).
  - intros Hh. split.
    + destruct (outcome (download_upack rt w team feed name version path fs)) as [e|[]] eqn:He.
      * rewrite (try_except_raise _ handler fs e He). apply Hh.
      * by rewrite (try_except_ok _ handler fs tt He).
    + destruct (outcome (publish_upack rt w team feed name version description path fs))
        as [e|[]] eqn:He.
      * rewrite (try_except_raise _ handler fs e He). apply Hh.
      * by rewrite (try_except_ok _ handler fs tt He).
Qed.

Lemma command_errors_reach_handler_witness :
  let w := MoreSamples.no_credential_world in
  let fs : gset string := {[Samples.cached_binary]} in
  let dl := download_upack Samples.runtime w "https://dev.example" "feed" "pkg" "1.0" "out" fs in
  download_package Samples.runtime w MoreSamples.logging_handler
    "https://dev.example" "feed" "pkg" "1.0" "out" fs =
  (inr tt, fs, trace dl ++ [Log Debug (PyStr "error")]).
Proof.
  cbv zeta.
  rewrite (proj1 (command_errors_reach_handler Samples.runtime
                    MoreSamples.no_credential_world MoreSamples.logging_handler
                    "https://dev.example" "feed" "pkg" "1.0" "out" None
                    {[Samples.cached_binary]}) CredentialError).
  - vm_compute. reflexivity.
  - vm_compute. reflexivity.
Defined.

(** ** Further properties of the version tag *)

Lemma rstrip_snoc chars c s :
  Str.mem_char c chars = true ->
  Str.rstrip chars (s +:+ String c "") = Str.rstrip chars s.
Proof.
  intros Hc. induction s as [|d s IH].
  - change ("" +:+ String c "") with (String c ""). cbn [Str.rstrip]. by rewrite Hc.
  - rewrite (append_cons d). cbn [Str.rstrip]. by rewrite IH.
Qed.

Lemma strip_snoc chars c s :
  Str.mem_char c chars = true ->
  Str.strip chars (s +:+ String c "") = Str.strip chars s.
Proof.
  intros Hc. unfold Str.strip. induction s as [|d s IH].
  - change ("" +:+ String c "") with (String c ""). cbn [Str.lstrip]. by rewrite Hc.
  - rewrite (append_cons d). cbn [Str.lstrip]. destruct (Str.mem_char d chars); [exact IH|].
    rewrite <- (append_cons d). by apply rstrip_snoc.
Qed.

Lemma lower_char_idempotent c : Str.lower_char (Str.lower_char c) = Str.lower_char c.
Proof. by destruct c as [[] [] [] [] [] [] [] []]. Qed.

Lemma lower_idempotent s : Str.lower (Str.lower s) = Str.lower s.
Proof.
  induction s as [|c s IH]; [done|]. cbn [Str.lower]. by rewrite lower_char_idempotent, IH.
Qed.

(** X21.  The quotes around the ETag value do not count: a value and the
    same value between double quotes, or with a quote on one side only,
    give the same version tag. *)
Theorem etag_quotes_do_not_count header :
  etag_of_header (Str.dquote +:+ header +:+ Str.dquote) = etag_of_header header /\
  etag_of_header (Str.dquote +:+ header) = etag_of_header header /\
  etag_of_header (header +:+ Str.dquote) = etag_of_header header.
Proof.
  assert (Hq : Str.mem_char Str.dquote_char Str.dquote = true) by reflexivity.
  assert (Hl : forall s, Str.strip Str.dquote (Str.dquote +:+ s) = Str.strip Str.dquote s).
  { intros s. unfold Str.strip. change (Str.dquote +:+ s) with (String Str.dquote_char s).
    cbn [Str.lstrip]. by rewrite Hq. }
  assert (Hr : forall s, Str.strip Str.dquote (s +:+ Str.dquote) = Str.strip Str.dquote s).
  { intros s. by apply strip_snoc. }
  unfold etag_of_header. by rewrite !Hl, !Hr.
Qed.

Lemma etag_of_prefixed header b :
  Str.strip Str.dquote header = "0x" +:+ b ->
  Str.contains "0x" b = false ->
  etag_of_header header = Str.lower b.
Proof.
  intros Hs Habs. unfold etag_of_header. rewrite Hs.
  change ("0x" +:+ b) with ("" +:+ "0x" +:+ b).
  by rewrite replace_0x_app, (replace_0x_absent b Habs).
Qed.

(** X22.  The version tag has no capital letter left: lowercasing it
    again gives the same string; and two ETag values 0x... whose digits
    differ in case only (0x occurring nowhere else) give the same tag, so
    they name the same cache directory. *)
Theorem etag_is_lowercase header :
  Str.lower (etag_of_header header) = etag_of_header header /\
  (forall other b b',
     Str.strip Str.dquote header = "0x" +:+ b ->
     Str.strip Str.dquote other = "0x" +:+ b' ->
     Str.contains "0x" b = false ->
     Str.contains "0x" b' = false ->
     Str.lower b = Str.lower b' ->
     etag_of_header other = etag_of_header header).
Proof.
  split.
  - unfold etag_of_header. apply lower_idempotent.
  - intros other b b' Hs Hs' Hb Hb' Hlow.
    by rewrite (etag_of_prefixed header b Hs Hb), (etag_of_prefixed other b' Hs' Hb').
Qed.

Lemma etag_is_lowercase_witness :
  etag_of_header (Samples.q "0x8d5f3a") = etag_of_header Samples.etag_header.
Proof.
  apply (proj2 (etag_is_lowercase Samples.etag_header) (Samples.q "0x8d5f3a")
           "8D5F3A" "8d5f3a"); reflexivity.
Defined.
